(** * nano_whatsapp: the WhatsApp image bot of [app.py]

    A shallow embedding of the three routines of [app.py]
    ([incoming_whatsapp], [serve_image], [cleanup_generated_images]) and of
    the small part of their environment that they observe: the working
    directory, the in-memory registry [generated_images], the calls made to
    the generation service and to the messaging provider, and the log.

    Python text is modelled as a list of Unicode code points, so that
    [str.strip] sees the same characters as the interpreter; bytes are lists
    of [Byte.byte]. *)

From Stdlib Require Import NArith String Ascii List Lia.
From stdpp Require Import base option list gmap.
Import ListNotations.

Set Default Proof Using "Type".

(** ** Python text and bytes *)

Definition str := list N.
Definition bytes := list Byte.byte.

(** Decoding of the UTF-8 source literals into code points: [need] counts the
    continuation bytes still expected and [acc] holds the bits read so far. *)
Fixpoint utf8_go (bs : list N) (need : nat) (acc : N) : str :=
  match bs with
  | [] => []
  | b :: rest =>
      match need with
      | O =>
          if (b <? 128)%N then b :: utf8_go rest 0 0%N
          else if (b <? 224)%N then utf8_go rest 1 (N.land b 31)
          else if (b <? 240)%N then utf8_go rest 2 (N.land b 15)
          else utf8_go rest 3 (N.land b 7)
      | S O => (acc * 64 + N.land b 63)%N :: utf8_go rest 0 0%N
      | S n => utf8_go rest n (acc * 64 + N.land b 63)%N
      end
  end.

(** [py s] is the Python text written as the literal [s] in the source. *)
Definition py (s : string) : str :=
  utf8_go (map N_of_ascii (list_ascii_of_string s)) 0 0%N.

Definition NL : str := [10%N].

(** [Py_UNICODE_ISSPACE]: the characters that [str.strip()] removes. *)
Definition isspace (c : N) : bool :=
  ((9 <=? c) && (c <=? 13) || (28 <=? c) && (c <=? 32)
   || (c =? 133) || (c =? 160) || (c =? 5760)
   || (8192 <=? c) && (c <=? 8202)
   || (c =? 8232) || (c =? 8233) || (c =? 8239) || (c =? 8287)
   || (c =? 12288))%N.

Fixpoint lstrip (s : str) : str :=
  match s with
  | [] => []
  | c :: rest => if isspace c then lstrip rest else s
  end.

Definition rstrip (s : str) : str := rev (lstrip (rev s)).

Definition strip (s : str) : str := rstrip (lstrip s).

(** Truth value of a Python [str]: the empty text is false. *)
Definition truthy (s : str) : bool :=
  match s with [] => false | _ :: _ => true end.

(** [f"{x}"] for a value that may be [None]. *)
Definition fmt_opt (o : option str) : str :=
  match o with Some s => s | None => py "None" end.

Fixpoint starts_with (pre s : str) : bool :=
  match pre, s with
  | [], _ => true
  | _ :: _, [] => false
  | a :: pre', b :: s' => (a =? b)%N && starts_with pre' s'
  end.

Definition ends_with (suf s : str) : bool := starts_with (rev suf) (rev s).

(** ** Exceptions and results *)

Inductive exn_class :=
  | FileNotFoundError | IsADirectoryError | OSError
  | TypeError | IndexError | AttributeError | ValueError
  | OtherException.

(** Every exception of the model is an instance of Python's [Exception]; its
    text is what [str(e)] gives. *)
Record exn := mk_exn { exn_cls : exn_class; exn_str : str }.

Inductive result (A : Type) :=
  | Ok (a : A)
  | Raise (e : exn).
Arguments Ok {A} a.
Arguments Raise {A} e.

#[global] Instance exn_class_eq_dec : EqDecision exn_class.
Proof. solve_decision. Defined.

(** ** The observable world *)

Inductive level := INFO | ERROR.

(** An entry of the working directory. *)
Inductive inode :=
  | File (content : bytes)
  | Dir.

(** The request of [twilio_client.messages.create]. *)
Record MessageRequest := {
  body : str;
  from_ : str;
  to : option str;
  media_url : list str;
}.

Record MessageInstance := { sid : str }.

(** The response of the generation service, with the optional fields of the
    client library's types. *)
Record Blob := { data : option bytes }.
Record Part := { text : option str; inline_data : option Blob }.
Record Content := { parts : option (list Part) }.
Record Candidate := { content : option Content }.
Record GenerateContentResponse := { candidates : option (list Candidate) }.

(** The working directory is kept in listing order, the order in which
    [glob.glob] enumerates it. *)
Record World := mk_world {
  files : list (str * inode);
  generated_images : gmap str bool;
  gemini_calls : list (str * list str);
  twilio_calls : list MessageRequest;
  log : list (level * str);
}.

(** What the outside answers during one request. *)
Record Env := {
  generate_content : str -> list str -> result GenerateContentResponse;
  uuid4_hex : str;
  (** [Image.open(BytesIO(d))] followed by the PNG encoding of
      [image.save]: the bytes that reach the file, or the exception. *)
  pil_png : bytes -> result bytes;
  (** When [pil_png] raises: whether the exception comes from the encoder,
      which [image.save] calls after it has opened the target file, and not
      from the decoding of the payload, which comes before. *)
  encoder_raises : bytes -> bool;
  messages_create : MessageRequest -> result MessageInstance;
  NGROK_URL : option str;
}.

(** How the application is deployed. [send_file] joins the name with
    [app.root_path], the directory of app.py, while [image.save],
    [glob.glob] and [os.remove] resolve it in the working directory of the
    process. *)
Record Deployment := {
  (** [None] when [app.root_path] is the working directory; otherwise the
      listing of that other directory. *)
  root_elsewhere : option (list (str * inode));
  (** The operating system refuses the joined path as too long. *)
  name_too_long : str -> bool;
  (** The text of the error of a class that is raised for a name under the
      root; it carries the joined path. *)
  os_error_text : exn_class -> str -> str;
}.

(** The form of the webhook request. *)
Record Form := { Body : option str; From : option str }.

(** A TwiML [MessagingResponse]: the texts of its [Message] verbs. *)
Record MessagingResponse := { messages : list str }.

Inductive HttpResponse :=
  | SendFile (content : bytes) (mimetype : str)
  | Plain (txt : str) (status : N).

(** ** State and exception monad *)

Definition M (A : Type) : Type := World -> result A * World.

Definition ret {A} (a : A) : M A := fun w => (Ok a, w).

Definition bind {A B} (m : M A) (k : A -> M B) : M B :=
  fun w =>
    match m w with
    | (Ok a, w') => k a w'
    | (Raise e, w') => (Raise e, w')
    end.

(** [try: m except Exception as e: h e]; the state reached by [m] is kept. *)
Definition try_except {A} (m : M A) (h : exn -> M A) : M A :=
  fun w =>
    match m w with
    | (Ok a, w') => (Ok a, w')
    | (Raise e, w') => h e w'
    end.

(** [try: m except C: h] for one exception class. *)
Definition try_except_cls {A} (c : exn_class) (m : M A) (h : M A) : M A :=
  fun w =>
    match m w with
    | (Ok a, w') => (Ok a, w')
    | (Raise e, w') =>
        if decide (exn_cls e = c) then h w' else (Raise e, w')
    end.

Definition lift {A} (r : result A) : M A := fun w => (r, w).

Notation "x <- m ;; k" := (bind m (fun x => k))
  (at level 100, m at level 99, k at level 200, only parsing).
Notation "m ;; k" := (bind m (fun _ => k))
  (at level 100, k at level 200, only parsing, right associativity).

(** ** Primitive effects *)

Definition set_files (f : list (str * inode)) (w : World) : World :=
  mk_world f (generated_images w) (gemini_calls w) (twilio_calls w) (log w).

Definition set_generated_images (g : gmap str bool) (w : World) : World :=
  mk_world (files w) g (gemini_calls w) (twilio_calls w) (log w).

Definition logger (l : level) (msg : str) : M unit :=
  fun w =>
    (Ok tt,
     mk_world (files w) (generated_images w) (gemini_calls w)
       (twilio_calls w) (log w ++ [(l, msg)])).

Definition logger_info := logger INFO.
Definition logger_error := logger ERROR.

Fixpoint fs_lookup (name : str) (fs : list (str * inode)) : option inode :=
  match fs with
  | [] => None
  | (n, i) :: rest => if decide (n = name) then Some i else fs_lookup name rest
  end.

(** Creating or truncating [name] and writing [d] to it. *)
Fixpoint fs_store (name : str) (d : bytes) (fs : list (str * inode))
  : list (str * inode) :=
  match fs with
  | [] => [(name, File d)]
  | (n, i) :: rest =>
      if decide (n = name) then (n, File d) :: rest
      else (n, i) :: fs_store name d rest
  end.

Fixpoint fs_unlink (name : str) (fs : list (str * inode))
  : list (str * inode) :=
  match fs with
  | [] => []
  | (n, i) :: rest =>
      if decide (n = name) then rest else (n, i) :: fs_unlink name rest
  end.

(** The two [OSError]s of the directory operations, with their texts. *)
Definition no_such_file (name : str) : exn :=
  mk_exn FileNotFoundError
    (py "[Errno 2] No such file or directory: '" ++ name ++ py "'").

Definition is_a_directory (name : str) : exn :=
  mk_exn IsADirectoryError
    (py "[Errno 21] Is a directory: '" ++ name ++ py "'").

(** [open(name, "w+b")] and the write of [d]. *)
Definition write_file (name : str) (d : bytes) : M unit :=
  fun w =>
    match fs_lookup name (files w) with
    | Some Dir => (Raise (is_a_directory name), w)
    | _ => (Ok tt, set_files (fs_store name d (files w)) w)
    end.

(** [os.remove(name)]. *)
Definition os_remove (name : str) : M unit :=
  fun w =>
    match fs_lookup name (files w) with
    | None => (Raise (no_such_file name), w)
    | Some Dir => (Raise (is_a_directory name), w)
    | Some (File _) => (Ok tt, set_files (fs_unlink name (files w)) w)
    end.

(** The directory in which [send_file] looks. *)
Definition root_listing (dep : Deployment) (w : World) : list (str * inode) :=
  match root_elsewhere dep with
  | None => files w
  | Some l => l
  end.

(** The names that denote the root directory or its parent: the empty name,
    [.] and [..]. They are in no listing and always exist. *)
Definition dot_name (name : str) : bool :=
  match name with
  | [] => true
  | [c] => (c =? 46)%N
  | [c; d] => (c =? 46)%N && (d =? 46)%N
  | _ => false
  end.

Definition has_nul (name : str) : bool := existsb (N.eqb 0) name.

Definition root_error (dep : Deployment) (c : exn_class) (name : str) : exn :=
  mk_exn c (os_error_text dep c name).

(** [send_file(name, mimetype=m)]: the status of the joined path is read,
    then the file is opened. A name with a NUL is refused by the
    interpreter, a path that is too long by the operating system; a
    directory has a status and cannot be opened for reading. *)
Definition send_file (dep : Deployment) (name : str) (m : str)
  : M HttpResponse :=
  fun w =>
    if has_nul name then (Raise (root_error dep ValueError name), w)
    else if name_too_long dep name then (Raise (root_error dep OSError name), w)
    else if dot_name name then
      (Raise (root_error dep IsADirectoryError name), w)
    else
      match fs_lookup name (root_listing dep w) with
      | None => (Raise (root_error dep FileNotFoundError name), w)
      | Some Dir => (Raise (root_error dep IsADirectoryError name), w)
      | Some (File d) => (Ok (SendFile d m), w)
      end.

(** The pattern ["generated_*.png"]. *)
Definition generated_pattern (name : str) : bool :=
  starts_with (py "generated_") name
  && ends_with (py ".png") (drop 10 name).

(** [glob.glob("generated_*.png")]: the matching names, in listing order. *)
Definition glob_generated : M (list str) :=
  fun w => (Ok (filter (fun n => generated_pattern n = true)
                  (map fst (files w))), w).

Definition call_generate_content (env : Env) (model : str)
    (contents : list str) : M GenerateContentResponse :=
  fun w =>
    (generate_content env model contents,
     mk_world (files w) (generated_images w)
       (gemini_calls w ++ [(model, contents)]) (twilio_calls w) (log w)).

Definition call_messages_create (env : Env) (rq : MessageRequest)
  : M MessageInstance :=
  fun w =>
    (messages_create env rq,
     mk_world (files w) (generated_images w) (gemini_calls w)
       (twilio_calls w ++ [rq]) (log w)).

(** [generated_images[name] = True]. *)
Definition registry_set (name : str) : M unit :=
  fun w => (Ok tt, set_generated_images (<[name := true]> (generated_images w)) w).

(** ** The routines of app.py *)

Definition SUCCESS_TEXT : str :=
  py "✅ Your image has been generated and is on its way!".
Definition NO_IMAGE_PREFIX : str :=
  py "⚠️ No image generated, but here's the response:" ++ NL.
Definition COULD_NOT_TEXT : str :=
  py "❌ Sorry, I couldn't generate an image from that prompt. Please try something else!".
Definition ERROR_TEXT : str :=
  py "❌ Sorry, an error occurred while processing your request. Please try again.".
Definition DEFAULT_NGROK_URL : str := py "https://4e8be9ba5910.ngrok-free.app".
Definition TWILIO_FROM : str := py "whatsapp:+14155238886".
Definition GEMINI_MODEL : str := py "gemini-2.5-flash-image".

(** [MessagingResponse()] and [r.message(t)]. *)
Definition twiml_empty : MessagingResponse := {| messages := [] |}.
Definition twiml_message (t : str) (r : MessagingResponse) : MessagingResponse :=
  {| messages := messages r ++ [t] |}.

(** [response.candidates[0].content.parts], as the [for] statement reads it;
    every absent link raises. *)
Definition first_candidate_parts (r : GenerateContentResponse)
  : result (list Part) :=
  match candidates r with
  | None => Raise (mk_exn TypeError (py "'NoneType' object is not subscriptable"))
  | Some [] => Raise (mk_exn IndexError (py "list index out of range"))
  | Some (c :: _) =>
      match content c with
      | None =>
          Raise (mk_exn AttributeError
                   (py "'NoneType' object has no attribute 'parts'"))
      | Some ct =>
          match parts ct with
          | None => Raise (mk_exn TypeError (py "'NoneType' object is not iterable"))
          | Some ps => Ok ps
          end
      end
  end.

(** One turn of the loop over the parts, on the pair
    [(image_data, response_text)]. *)
Definition process_part (st : option bytes * str) (part : Part)
  : option bytes * str :=
  match text part with
  | Some t => (fst st, snd st ++ t ++ NL)
  | None =>
      match inline_data part with
      | Some blob => (data blob, snd st)
      | None => st
      end
  end.

Definition process_parts (ps : list Part) : option bytes * str :=
  fold_left process_part ps (None, []).

(** [f"generated_{uuid.uuid4().hex[:8]}.png"]. *)
Definition image_filename (env : Env) : str :=
  py "generated_" ++ take 8 (uuid4_hex env) ++ py ".png".

Definition ngrok_url (env : Env) : str :=
  match NGROK_URL env with Some u => u | None => DEFAULT_NGROK_URL end.

Definition image_url (env : Env) : str :=
  ngrok_url env ++ py "/images/" ++ image_filename env.

Definition caption (incoming_msg : str) : str :=
  py "🎨 Here's your generated image for: '" ++ incoming_msg ++ py "'".

(** What a failing [image.save] leaves behind and raises. A failure of the
    decoding comes before the target is opened. A failure of the encoder
    comes after [open(name, "w+b")]: a directory of that name makes the
    opening itself fail, an existing file has been truncated, and a file
    that the opening created is removed again. *)
Definition failed_save (env : Env) (name : str) (d : bytes) (e : exn)
    (w : World) : exn * World :=
  if encoder_raises env d then
    match fs_lookup name (files w) with
    | Some Dir => (is_a_directory name, w)
    | Some (File _) => (e, set_files (fs_store name [] (files w)) w)
    | None => (e, set_files (fs_unlink name (fs_store name [] (files w))) w)
    end
  else (e, w).

(** [image = Image.open(BytesIO(d))] and [image.save(name)]. *)
Definition open_and_save (env : Env) (name : str) (d : bytes) : M unit :=
  fun w =>
    match pil_png env d with
    | Ok png => write_file name png w
    | Raise e =>
        (Raise (fst (failed_save env name d e w)),
         snd (failed_save env name d e w))
    end.

(** The branch [if image_data:] of the handler. *)
Definition send_image (env : Env) (incoming_msg : str)
    (from_number : option str) (image_data : bytes) : M MessagingResponse :=
  open_and_save env (image_filename env) image_data ;;
  logger_info (py "Image saved as: " ++ image_filename env) ;;
  registry_set (image_filename env) ;;
  message <- call_messages_create env
               {| body := caption incoming_msg;
                  from_ := TWILIO_FROM;
                  to := from_number;
                  media_url := [image_url env] |} ;;
  logger_info (py "Image sent via Twilio, SID: " ++ sid message) ;;
  ret (twiml_message SUCCESS_TEXT twiml_empty).

(** The [else] branch: no image was generated. *)
Definition no_image (response_text : str) : M MessagingResponse :=
  if truthy response_text
  then ret (twiml_message (NO_IMAGE_PREFIX ++ response_text) twiml_empty)
  else ret (twiml_message COULD_NOT_TEXT twiml_empty).

(** Lines 51 to 99: what the handler does with the parts of the response. *)
Definition handle_parts (env : Env) (incoming_msg : str)
    (from_number : option str) (ps : list Part) : M MessagingResponse :=
  match process_parts ps with
  | (Some (b :: bs), _) => send_image env incoming_msg from_number (b :: bs)
  | (_, response_text) => no_image response_text
  end.

(** The body of the [try] statement. *)
Definition pipeline (env : Env) (incoming_msg : str)
    (from_number : option str) : M MessagingResponse :=
  logger_info (py "Generating image for prompt: " ++ incoming_msg) ;;
  response <- call_generate_content env GEMINI_MODEL [incoming_msg] ;;
  ps <- lift (first_candidate_parts response) ;;
  handle_parts env incoming_msg from_number ps.

Definition on_error (e : exn) : M MessagingResponse :=
  logger_error (py "An error occurred: " ++ exn_str e) ;;
  ret (twiml_message ERROR_TEXT twiml_empty).

Definition incoming_whatsapp (env : Env) (form : Form) : M MessagingResponse :=
  let incoming_msg := strip (default [] (Body form)) in
  let from_number := From form in
  logger_info (py "Received message from " ++ fmt_opt from_number
               ++ py ": " ++ incoming_msg) ;;
  if negb (truthy incoming_msg) then ret twiml_empty
  else try_except (pipeline env incoming_msg from_number) on_error.

Definition serve_image (dep : Deployment) (filename : str) : M HttpResponse :=
  try_except_cls FileNotFoundError
    (logger_info (py "Serving image: " ++ filename) ;;
     send_file dep filename (py "image/png"))
    (logger_error (py "Image not found: " ++ filename) ;;
     ret (Plain (py "Image not found") 404)).

Definition health_check : str :=
  py "🚀 WhatsApp Image Bot is running with Nano Banana API!".

(** The loop of the cleanup, over the list that [glob.glob] returned. *)
Fixpoint remove_each (names : list str) : M unit :=
  match names with
  | [] => ret tt
  | filename :: rest =>
      os_remove filename ;;
      logger_info (py "Cleaned up: " ++ filename) ;;
      remove_each rest
  end.

Definition cleanup_generated_images : M unit :=
  try_except
    (names <- glob_generated ;; remove_each names)
    (fun e => logger_error (py "Cleanup error: " ++ exn_str e)).

(** ** Vocabulary of the statements *)

(** The text fragments of the parts, in order. *)
Definition fragments (ps : list Part) : list str := omap text ps.

(** Each fragment followed by a newline, as [response_text] is built. *)
Definition newline_terminated (ts : list str) : str :=
  concat (map (fun t => t ++ NL) ts).

(** Python's [sep.join(ts)]: the separator stands between the fragments only. *)
Fixpoint join (sep : str) (ts : list str) : str :=
  match ts with
  | [] => []
  | [t] => t
  | t :: rest => t ++ sep ++ join sep rest
  end.

(** A part from which the loop takes the image: no text, inline data. *)
Definition image_only (p : Part) : bool :=
  match text p, inline_data p with
  | None, Some _ => true
  | _, _ => false
  end.

Definition payload (p : Part) : option bytes :=
  match inline_data p with Some b => data b | None => None end.

(** The world in which the pipeline starts: the request has been logged. *)
Definition received (form : Form) (w : World) : World :=
  snd (logger_info (py "Received message from " ++ fmt_opt (From form)
                    ++ py ": " ++ strip (default [] (Body form))) w).

(** The world after the prompt has been logged and the generation service
    called. *)
Definition asked (incoming_msg : str) (w : World) : World :=
  mk_world (files w) (generated_images w)
    (gemini_calls w ++ [(GEMINI_MODEL, [incoming_msg])]) (twilio_calls w)
    (log w ++ [(INFO, py "Generating image for prompt: " ++ incoming_msg)]).

(** The request sent to the messaging provider. *)
Definition media_message (env : Env) (msg : str) (from : option str)
  : MessageRequest :=
  {| body := caption msg; from_ := TWILIO_FROM; to := from;
     media_url := [image_url env] |}.

(** The world after the image has been written and registered and the
    provider has been called. *)
Definition sent (env : Env) (msg : str) (from : option str) (png : bytes)
    (w : World) : World :=
  mk_world (fs_store (image_filename env) png (files w))
    (<[image_filename env := true]> (generated_images w))
    (gemini_calls w) (twilio_calls w ++ [media_message env msg from])
    (log w ++ [(INFO, py "Image saved as: " ++ image_filename env)]).

(** The exceptions of the pipeline, by the step that raises them: the
    generation call, the reading of the response, the decoding or the
    encoding of the image, its write to the working directory, the call to
    the provider. *)
Inductive pipeline_failure (env : Env) (msg : str) (from : option str)
    (w : World) : exn -> Prop :=
  | generation_failure e :
      generate_content env GEMINI_MODEL [msg] = Raise e ->
      pipeline_failure env msg from w e
  | parsing_failure r e :
      generate_content env GEMINI_MODEL [msg] = Ok r ->
      first_candidate_parts r = Raise e ->
      pipeline_failure env msg from w e
  | decode_failure r ps b bs txt e :
      generate_content env GEMINI_MODEL [msg] = Ok r ->
      first_candidate_parts r = Ok ps ->
      process_parts ps = (Some (b :: bs), txt) ->
      pil_png env (b :: bs) = Raise e ->
      pipeline_failure env msg from w
        (fst (failed_save env (image_filename env) (b :: bs) e w))
  | persist_failure r ps b bs txt png :
      generate_content env GEMINI_MODEL [msg] = Ok r ->
      first_candidate_parts r = Ok ps ->
      process_parts ps = (Some (b :: bs), txt) ->
      pil_png env (b :: bs) = Ok png ->
      fs_lookup (image_filename env) (files w) = Some Dir ->
      pipeline_failure env msg from w (is_a_directory (image_filename env))
  | send_failure r ps b bs txt png e :
      generate_content env GEMINI_MODEL [msg] = Ok r ->
      first_candidate_parts r = Ok ps ->
      process_parts ps = (Some (b :: bs), txt) ->
      pil_png env (b :: bs) = Ok png ->
      fs_lookup (image_filename env) (files w) <> Some Dir ->
      messages_create env (media_message env msg from) = Raise e ->
      pipeline_failure env msg from w e.

(** The no-image fallback texts: the notice followed by the text of the
    response, or the fixed could-not-generate notice. *)
Definition is_fallback (m : str) : Prop :=
  (exists t, t <> [] /\ m = NO_IMAGE_PREFIX ++ t) \/ m = COULD_NOT_TEXT.

(** The reply [m] is of exactly one of the three kinds. *)
Definition one_kind (m : str) : Prop :=
  (m = SUCCESS_TEXT /\ ~ is_fallback m /\ m <> ERROR_TEXT)
  \/ (is_fallback m /\ m <> SUCCESS_TEXT /\ m <> ERROR_TEXT)
  \/ (m = ERROR_TEXT /\ m <> SUCCESS_TEXT /\ ~ is_fallback m).

(** The environment [env] in which the generation service answers [r]. *)
Definition answering (env : Env) (r : GenerateContentResponse) : Env :=
  {| generate_content := fun _ _ => Ok r;
     uuid4_hex := uuid4_hex env;
     pil_png := pil_png env;
     encoder_raises := encoder_raises env;
     messages_create := messages_create env;
     NGROK_URL := NGROK_URL env |}.

(** The entry [n] is a regular file, which [os.remove] can delete. *)
Definition is_file (fs : list (str * inode)) (n : str) : bool :=
  match fs_lookup n fs with Some (File _) => true | _ => false end.

(** The names that the cleanup visits. *)
Definition generated_names (w : World) : list str :=
  filter (fun n => generated_pattern n = true) (map fst (files w)).

(** The request left the directory, the registry and the provider alone. *)
Definition untouched (w w' : World) : Prop :=
  files w' = files w
  /\ generated_images w' = generated_images w
  /\ twilio_calls w' = twilio_calls w.

(** The request wrote [png] under its file name, registered the name and
    called the provider once. *)
Definition delivered (env : Env) (msg : str) (from : option str)
    (png : bytes) (w w' : World) : Prop :=
  fs_lookup (image_filename env) (files w) <> Some Dir
  /\ files w' = fs_store (image_filename env) png (files w)
  /\ generated_images w'
     = <[image_filename env := true]> (generated_images w)
  /\ twilio_calls w' = twilio_calls w ++ [media_message env msg from].

(** The request failed in the encoder after [image.save] had opened an
    existing file of its name: that file is left empty, and the registry and
    the provider are as before. *)
Definition emptied (env : Env) (w w' : World) : Prop :=
  (exists old, fs_lookup (image_filename env) (files w) = Some (File old))
  /\ files w' = fs_store (image_filename env) [] (files w)
  /\ generated_images w' = generated_images w
  /\ twilio_calls w' = twilio_calls w.

(** The three effects that a request can have. *)
Definition effect (env : Env) (msg : str) (from : option str)
    (w w' : World) : Prop :=
  untouched w w' \/ emptied env w w'
  \/ exists png, delivered env msg from png w w'.

(** What the cleanup loop does to the directory: it unlinks the names in
    turn and stops at the first one that is not a regular file. *)
Fixpoint remove_each_files (names : list str) (fs : list (str * inode))
  : list (str * inode) :=
  match names with
  | [] => fs
  | n :: rest =>
      if is_file fs n then remove_each_files rest (fs_unlink n fs) else fs
  end.

(** A name that the interpreter and the operating system accept and that
    can denote a file under the root: no NUL, not too long, and not the
    empty name, [.] or [..]. *)
Definition ordinary_name (dep : Deployment) (name : str) : bool :=
  negb (has_nul name) && negb (name_too_long dep name)
  && negb (dot_name name).

(** ** Concrete environments and worlds of the examples *)

(** The application started in its own directory, and started from another
    directory, in which app.py's directory holds no image. *)
Definition demo_error_text (c : exn_class) (name : str) : str :=
  py "/srv/app/" ++ name.

(** The number of bytes of a name in UTF-8, which a file system bounds by
    255. *)
Definition utf8_length (name : str) : nat :=
  list_sum (map (fun c => if (c <? 128)%N then 1
                          else if (c <? 2048)%N then 2
                          else if (c <? 65536)%N then 3 else 4) name).

Definition cwd_deployment : Deployment :=
  {| root_elsewhere := None;
     name_too_long := fun n => Nat.ltb 255 (utf8_length n);
     os_error_text := demo_error_text |}.

Definition elsewhere_deployment : Deployment :=
  {| root_elsewhere := Some [];
     name_too_long := fun n => Nat.ltb 255 (utf8_length n);
     os_error_text := demo_error_text |}.


Definition empty_world : World := mk_world [] ∅ [] [] [].

(** An environment in which every collaborator answers: the generation
    service returns [r], the encoder returns its input (a payload that is
    already the canonical PNG), and the provider accepts the message. *)
Definition demo_env (r : result GenerateContentResponse) : Env :=
  {| generate_content := fun _ _ => r;
     uuid4_hex := py "0a1b2c3d4e5f4a7b8c9d0e1f2a3b4c5d";
     pil_png := fun d => Ok d;
     encoder_raises := fun _ => false;
     messages_create := fun _ => Ok {| sid := py "SM0001" |};
     NGROK_URL := None |}.

Definition response_of (ps : list Part) : GenerateContentResponse :=
  {| candidates := Some [ {| content := Some {| parts := Some ps |} |} ] |}.

Definition text_part (t : str) : Part :=
  {| text := Some t; inline_data := None |}.

Definition image_part (d : bytes) : Part :=
  {| text := None; inline_data := Some {| data := Some d |} |}.

Definition demo_form (b : string) : Form :=
  {| Body := Some (py b); From := Some (py "whatsapp:+15551234567") |}.

Definition png1 : bytes := [Byte.x89; Byte.x50; Byte.x4e; Byte.x47; Byte.x01].
Definition png2 : bytes := [Byte.x89; Byte.x50; Byte.x4e; Byte.x47; Byte.x02].

Definition timeout_exn : exn := mk_exn OtherException (py "deadline exceeded").

Definition failing_send_env : Env :=
  {| generate_content := fun _ _ => Ok (response_of [image_part png1]);
     uuid4_hex := py "0a1b2c3d4e5f4a7b8c9d0e1f2a3b4c5d";
     pil_png := fun d => Ok d;
     encoder_raises := fun _ => false;
     messages_create := fun _ => Raise timeout_exn;
     NGROK_URL := None |}.

(** The directory after a request answered with the parts [ps], in the
    demonstration environment and from an empty directory. *)
Definition demo_files (ps : list Part) : list (str * inode) :=
  files (snd (incoming_whatsapp (demo_env (Ok (response_of ps)))
                (demo_form "a red bicycle") empty_world)).

(** A part with both a text and an inline payload. *)
Definition captioned_image_part : Part :=
  {| text := Some (py "Here you go");
     inline_data := Some {| data := Some png1 |} |}.

(** The reply to a request answered with the parts [ps], in the
    demonstration environment. *)
Definition demo_reply (ps : list Part) : result MessagingResponse :=
  fst (incoming_whatsapp (demo_env (Ok (response_of ps)))
         (demo_form "a red bicycle") empty_world).

Definition failing_decode_env : Env :=
  {| generate_content := fun _ _ => Ok (response_of [image_part png1]);
     uuid4_hex := py "0a1b2c3d4e5f4a7b8c9d0e1f2a3b4c5d";
     pil_png :=
       fun _ => Raise (mk_exn OtherException (py "cannot identify image file"));
     encoder_raises := fun _ => false;
     messages_create := fun _ => Ok {| sid := py "SM0001" |};
     NGROK_URL := None |}.

Definition bicycle_parts : list Part :=
  [text_part (py "Here you go"); image_part png1].

Definition bicycle_env : Env := demo_env (Ok (response_of bicycle_parts)).

Definition bicycle_request : MessageRequest :=
  {| body := py "🎨 Here's your generated image for: 'a red bicycle'";
     from_ := py "whatsapp:+14155238886";
     to := Some (py "whatsapp:+15551234567");
     media_url :=
       [py "https://4e8be9ba5910.ngrok-free.app/images/generated_0a1b2c3d.png"] |}.

(** The world after the bicycle request of the specification's example. *)
Definition bicycle_world : World :=
  snd (incoming_whatsapp bicycle_env (demo_form "a red bicycle") empty_world).

(** A directory with a deleted image, a directory entry that matches the
    pattern, and a second image listed after it. *)
Definition cluttered_world : World :=
  mk_world
    [ (py "generated_aaaaaaaa.png", File png1);
      (py "generated_bbbbbbbb.png", Dir);
      (py "generated_cccccccc.png", File png2) ]
    ∅ [] [] [].

(** A second environment, whose uuid shares its first 8 digits with the one
    of the bicycle request and whose response holds another image. *)
Definition colliding_env : Env :=
  {| generate_content := fun _ _ => Ok (response_of [image_part png2]);
     uuid4_hex := py "0a1b2c3dffffffffffffffffffffffff";
     pil_png := fun d => Ok d;
     encoder_raises := fun _ => false;
     messages_create := fun _ => Ok {| sid := py "SM0002" |};
     NGROK_URL := None |}.

(** An environment in which the payload decodes but the PNG encoder refuses
    the image, and the uuid is the one of the bicycle request. *)
Definition failing_encoder_env : Env :=
  {| generate_content := fun _ _ => Ok (response_of [image_part png2]);
     uuid4_hex := py "0a1b2c3d4e5f4a7b8c9d0e1f2a3b4c5d";
     pil_png :=
       fun _ => Raise (mk_exn OSError (py "cannot write mode CMYK as PNG"));
     encoder_raises := fun _ => true;
     messages_create := fun _ => Ok {| sid := py "SM0003" |};
     NGROK_URL := None |}.

(** ** Tactics *)

(** The literals stay folded during simplification. *)
Arguments py : simpl never.

Ltac unfold_handler :=
  unfold incoming_whatsapp, pipeline, handle_parts, send_image, no_image,
    on_error, try_except, bind, ret, lift, call_generate_content,
    call_messages_create, write_file, registry_set, logger_info,
    logger_error, logger, set_files, set_generated_images,
    twiml_message, twiml_empty in *.

(** * Properties *)

(** ** Sanity checks of the text model *)

Example py_success_head : take 2 SUCCESS_TEXT = [9989%N; 32%N].
Proof. reflexivity. Qed.

Example py_no_image_head : take 3 NO_IMAGE_PREFIX = [9888%N; 65039%N; 32%N].
Proof. reflexivity. Qed.

Example py_caption_head : take 1 (caption []) = [127912%N].
Proof. reflexivity. Qed.

Example strip_example : strip (py "  a red bicycle ") = py "a red bicycle".
Proof. reflexivity. Qed.

Example strip_nbsp : strip [160%N; 8195%N; 10%N] = [].
Proof. reflexivity. Qed.

Example generated_pattern_yes : generated_pattern (py "generated_0a1b2c3d.png") = true.
Proof. reflexivity. Qed.

Example generated_pattern_min : generated_pattern (py "generated_.png") = true.
Proof. reflexivity. Qed.

Example generated_pattern_no : generated_pattern (py "generated_.pn") = false.
Proof. reflexivity. Qed.

(** ** Text *)

Lemma lstrip_nil_iff (s : str) : lstrip s = [] <-> forallb isspace s = true.
Proof.
  induction s as [|c s IH]; simpl; [tauto|].
  destruct (isspace c); simpl; [exact IH|].
  split; discriminate.
Qed.

Lemma lstrip_head (s : str) :
  lstrip s = [] \/ exists c r, lstrip s = c :: r /\ isspace c = false.
Proof.
  induction s as [|c s IH]; simpl; [now left|].
  destruct (isspace c) eqn:E; [exact IH|].
  right. now exists c, s.
Qed.

Lemma forallb_isspace_rev (s : str) :
  forallb isspace (rev s) = forallb isspace s.
Proof.
  induction s as [|c s IH]; simpl; [reflexivity|].
  rewrite forallb_app, IH. simpl. rewrite andb_true_r. apply andb_comm.
Qed.

(** Trimming leaves nothing exactly when the text is blank. *)
Lemma strip_nil_iff (s : str) : strip s = [] <-> forallb isspace s = true.
Proof.
  unfold strip, rstrip. split.
  - intros H.
    assert (H1 : lstrip (rev (lstrip s)) = []).
    { destruct (lstrip (rev (lstrip s))) as [|c l]; [reflexivity|].
      simpl in H. destruct (rev l); discriminate. }
    apply lstrip_nil_iff in H1. rewrite forallb_isspace_rev in H1.
    destruct (lstrip_head s) as [E | (c & r & E & Hc)].
    + now apply lstrip_nil_iff.
    + rewrite E in H1. simpl in H1. now rewrite Hc in H1.
  - intros H. apply lstrip_nil_iff in H. now rewrite H.
Qed.

Lemma truthy_false_iff (s : str) : truthy s = false <-> s = [].
Proof. destruct s; simpl; split; congruence. Qed.

Lemma truthy_true_iff (s : str) : truthy s = true <-> s <> [].
Proof. destruct s; simpl; split; congruence. Qed.

(** The four acknowledgment texts are told apart by their first characters. *)
Lemma no_image_not_success (t : str) : NO_IMAGE_PREFIX ++ t <> SUCCESS_TEXT.
Proof. intros H. apply (f_equal (take 1)) in H. vm_compute in H. discriminate. Qed.

Lemma no_image_not_could_not (t : str) : NO_IMAGE_PREFIX ++ t <> COULD_NOT_TEXT.
Proof. intros H. apply (f_equal (take 1)) in H. vm_compute in H. discriminate. Qed.

Lemma no_image_not_error (t : str) : NO_IMAGE_PREFIX ++ t <> ERROR_TEXT.
Proof. intros H. apply (f_equal (take 1)) in H. vm_compute in H. discriminate. Qed.

Lemma could_not_not_error : COULD_NOT_TEXT <> ERROR_TEXT.
Proof. intros H. vm_compute in H. discriminate. Qed.

Lemma success_not_could_not : SUCCESS_TEXT <> COULD_NOT_TEXT.
Proof. intros H. vm_compute in H. discriminate. Qed.

Lemma success_not_error : SUCCESS_TEXT <> ERROR_TEXT.
Proof. intros H. vm_compute in H. discriminate. Qed.

(** ** The loop over the parts *)

Lemma process_part_text (st : option bytes * str) (p : Part) (t : str) :
  text p = Some t -> process_part st p = (fst st, snd st ++ t ++ NL).
Proof. intros H. unfold process_part. now rewrite H. Qed.

Lemma process_part_image (st : option bytes * str) (p : Part) :
  image_only p = true -> process_part st p = (payload p, snd st).
Proof.
  unfold image_only, process_part, payload.
  destruct (text p); [discriminate|].
  destruct (inline_data p); [reflexivity | discriminate].
Qed.

Lemma process_part_not_image (st : option bytes * str) (p : Part) :
  image_only p = false -> fst (process_part st p) = fst st.
Proof.
  unfold image_only, process_part.
  destruct (text p); [reflexivity|].
  destruct (inline_data p); [discriminate | reflexivity].
Qed.

Lemma fold_process_text (ps : list Part) (st : option bytes * str) :
  snd (fold_left process_part ps st)
  = snd st ++ newline_terminated (fragments ps).
Proof.
  revert st. induction ps as [|p ps IH]; intros st.
  - simpl. now rewrite app_nil_r.
  - simpl. rewrite IH. unfold process_part, fragments, newline_terminated.
    simpl. destruct (text p) as [t|]; simpl.
    + now rewrite <- !app_assoc.
    + now destruct (inline_data p).
Qed.

Lemma fold_process_no_image (qs : list Part) (st : option bytes * str) :
  forallb (fun q => negb (image_only q)) qs = true ->
  fst (fold_left process_part qs st) = fst st.
Proof.
  revert st. induction qs as [|q qs IH]; intros st H; [reflexivity|].
  simpl in H. apply andb_prop in H as [Hq Hqs].
  simpl. rewrite (IH _ Hqs). apply process_part_not_image.
  now apply negb_true_iff.
Qed.

(** Where the captured image comes from: the initial value, or a part of the
    list that has no text and carries inline data. *)
Lemma fold_process_origin (ps : list Part) (st : option bytes * str) :
  fst (fold_left process_part ps st) = fst st
  \/ exists p, In p ps /\ image_only p = true
               /\ fst (fold_left process_part ps st) = payload p.
Proof.
  revert st. induction ps as [|p ps IH]; intros st; [now left|].
  simpl. destruct (IH (process_part st p)) as [E | (q & Hq & Hi & E)].
  - rewrite E. destruct (image_only p) eqn:Hp.
    + right. exists p. rewrite (process_part_image _ _ Hp). simpl. auto.
    + left. now apply process_part_not_image.
  - right. exists q. auto.
Qed.

(** The loop keeps the payload of the last part it takes an image from. *)
Lemma process_parts_last (ps qs : list Part) (p : Part) :
  image_only p = true ->
  forallb (fun q => negb (image_only q)) qs = true ->
  process_parts (ps ++ p :: qs)
  = (payload p, newline_terminated (fragments (ps ++ p :: qs))).
Proof.
  intros Hp Hqs. unfold process_parts.
  rewrite (surjective_pairing (fold_left _ _ _)). f_equal.
  - rewrite fold_left_app. simpl.
    rewrite (fold_process_no_image _ _ Hqs).
    now rewrite (process_part_image _ _ Hp).
  - now rewrite fold_process_text.
Qed.

Lemma process_parts_text_only (ps : list Part) :
  forallb (fun q => negb (image_only q)) ps = true ->
  process_parts ps = (None, newline_terminated (fragments ps)).
Proof.
  intros H. unfold process_parts.
  rewrite (surjective_pairing (fold_left _ _ _)). f_equal.
  - now rewrite fold_process_no_image.
  - now rewrite fold_process_text.
Qed.

Example process_parts_two_images :
  process_parts [image_part png1; text_part (py "Here you go"); image_part png2]
  = (Some png2, py "Here you go" ++ NL).
Proof. reflexivity. Qed.

(** ** The webhook handler, case by case *)

Lemma incoming_blank (env : Env) (form : Form) (w : World) :
  strip (default [] (Body form)) = [] ->
  incoming_whatsapp env form w = (Ok twiml_empty, received form w).
Proof. intros H. unfold incoming_whatsapp, received. rewrite H. reflexivity. Qed.

Lemma incoming_nonblank (env : Env) (form : Form) (w : World) :
  strip (default [] (Body form)) <> [] ->
  incoming_whatsapp env form w
  = try_except
      (pipeline env (strip (default [] (Body form))) (From form))
      on_error (received form w).
Proof.
  intros H. unfold incoming_whatsapp, received.
  destruct (strip (default [] (Body form))); [congruence|]. reflexivity.
Qed.

(** The handler never lets an exception out. *)
Lemma incoming_total (env : Env) (form : Form) (w : World) :
  exists r w', incoming_whatsapp env form w = (Ok r, w').
Proof.
  destruct (strip (default [] (Body form))) eqn:E.
  - rewrite incoming_blank by exact E. eauto.
  - rewrite incoming_nonblank by congruence.
    unfold try_except.
    destruct (pipeline _ _ _ _) as [[r|e] w']; [eauto|].
    unfold on_error, bind, logger_error, logger, ret. eauto.
Qed.

Lemma pipeline_generation_raises env msg from w e :
  generate_content env GEMINI_MODEL [msg] = Raise e ->
  pipeline env msg from w = (Raise e, asked msg w).
Proof. intros H. unfold_handler. simpl. now rewrite H. Qed.

Lemma pipeline_parts env msg from w r :
  generate_content env GEMINI_MODEL [msg] = Ok r ->
  pipeline env msg from w
  = match first_candidate_parts r with
    | Ok ps => handle_parts env msg from ps (asked msg w)
    | Raise e => (Raise e, asked msg w)
    end.
Proof.
  intros H. unfold pipeline, bind, lift, call_generate_content, logger_info,
    logger. simpl. rewrite H. now destruct (first_candidate_parts r).
Qed.

Lemma handle_parts_no_image env msg from ps w txt :
  process_parts ps = (None, txt) \/ process_parts ps = (Some [], txt) ->
  handle_parts env msg from ps w
  = (Ok {| messages := [if truthy txt then NO_IMAGE_PREFIX ++ txt
                        else COULD_NOT_TEXT] |}, w).
Proof.
  intros [H|H]; unfold handle_parts, no_image; rewrite H;
    now destruct (truthy txt).
Qed.

Lemma handle_parts_image env msg from ps w b bs txt :
  process_parts ps = (Some (b :: bs), txt) ->
  handle_parts env msg from ps w
  = match pil_png env (b :: bs) with
    | Raise e =>
        (Raise (fst (failed_save env (image_filename env) (b :: bs) e w)),
         snd (failed_save env (image_filename env) (b :: bs) e w))
    | Ok png =>
        match fs_lookup (image_filename env) (files w) with
        | Some Dir =>
            (Raise (is_a_directory (image_filename env)), w)
        | _ =>
            match messages_create env (media_message env msg from) with
            | Raise e => (Raise e, sent env msg from png w)
            | Ok m =>
                (Ok {| messages := [SUCCESS_TEXT] |},
                 snd (logger_info (py "Image sent via Twilio, SID: " ++ sid m)
                        (sent env msg from png w)))
            end
        end
    end.
Proof.
  intros H. unfold handle_parts. rewrite H.
  unfold send_image, bind, open_and_save, write_file.
  destruct (pil_png env (b :: bs)) as [png|e]; [|reflexivity].
  destruct (fs_lookup (image_filename env) (files w)) as [[d|]|];
    try reflexivity;
    unfold logger_info, logger, registry_set, call_messages_create, ret, sent,
      media_message, set_files, set_generated_images; simpl;
    now destruct (messages_create env _).
Qed.

Lemma failed_save_exn env name d e w1 w2 :
  files w1 = files w2 ->
  fst (failed_save env name d e w1) = fst (failed_save env name d e w2).
Proof.
  intros H. unfold failed_save. rewrite H.
  destruct (encoder_raises env d); [|reflexivity].
  now destruct (fs_lookup name (files w2)) as [[c|]|].
Qed.

Lemma pipeline_failure_raises env msg from w e :
  pipeline_failure env msg from w e ->
  exists w', pipeline env msg from w = (Raise e, w').
Proof.
  intros H. destruct H as
    [e Hg | r e Hg Hp | r ps b bs txt e Hg Hp Hl Hd
     | r ps b bs txt png Hg Hp Hl Hd Hf | r ps b bs txt png e Hg Hp Hl Hd Hf Hs].
  - rewrite (pipeline_generation_raises _ _ _ _ _ Hg). eauto.
  - rewrite (pipeline_parts _ _ _ _ _ Hg), Hp. eauto.
  - rewrite (pipeline_parts _ _ _ _ _ Hg), Hp.
    rewrite (handle_parts_image _ _ _ _ _ _ _ _ Hl), Hd.
    rewrite (failed_save_exn _ _ _ _ (asked msg w) w) by reflexivity. eauto.
  - rewrite (pipeline_parts _ _ _ _ _ Hg), Hp.
    rewrite (handle_parts_image _ _ _ _ _ _ _ _ Hl), Hd.
    change (files (asked msg w)) with (files w). rewrite Hf. eauto.
  - rewrite (pipeline_parts _ _ _ _ _ Hg), Hp.
    rewrite (handle_parts_image _ _ _ _ _ _ _ _ Hl), Hd.
    change (files (asked msg w)) with (files w).
    destruct (fs_lookup _ _) as [[d|]|]; [| congruence |]; rewrite Hs; eauto.
Qed.

(** Conversely every exception of the pipeline is one of these. *)
Lemma pipeline_raises_failure env msg from w e w' :
  pipeline env msg from w = (Raise e, w') ->
  pipeline_failure env msg from w e.
Proof.
  destruct (generate_content env GEMINI_MODEL [msg]) as [r|e0] eqn:Hg.
  - rewrite (pipeline_parts _ _ _ _ _ Hg).
    destruct (first_candidate_parts r) as [ps|e0] eqn:Hp.
    + destruct (process_parts ps) as [[[|b bs]|] txt] eqn:Hl.
      * rewrite (handle_parts_no_image _ _ _ _ _ txt) by auto. discriminate.
      * rewrite (handle_parts_image _ _ _ _ _ _ _ _ Hl).
        change (files (asked msg w)) with (files w).
        destruct (pil_png env (b :: bs)) as [png|e0] eqn:Hd.
        -- destruct (fs_lookup (image_filename env) (files w))
             as [[d|]|] eqn:Hf.
           ++ destruct (messages_create env _) as [m|e0] eqn:Hs;
                [discriminate|].
              intros [= <- <-].
              eapply send_failure; eauto. congruence.
           ++ intros [= <- <-]. eapply persist_failure; eauto.
           ++ destruct (messages_create env _) as [m|e0] eqn:Hs;
                [discriminate|].
              intros [= <- <-].
              eapply send_failure; eauto. congruence.
        -- intros [= <- <-].
           rewrite (failed_save_exn _ _ _ _ (asked msg w) w) by reflexivity.
           eapply decode_failure; eauto.
      * rewrite (handle_parts_no_image _ _ _ _ _ txt) by auto. discriminate.
    + intros [= <- <-]. eapply parsing_failure; eauto.
  - rewrite (pipeline_generation_raises _ _ _ _ _ Hg).
    intros [= <- <-]. now apply generation_failure.
Qed.

Lemma incoming_pipeline_raises env form w e w1 :
  strip (default [] (Body form)) <> [] ->
  pipeline env (strip (default [] (Body form))) (From form) (received form w)
  = (Raise e, w1) ->
  incoming_whatsapp env form w
  = (Ok {| messages := [ERROR_TEXT] |},
     snd (logger_error (py "An error occurred: " ++ exn_str e) w1)).
Proof.
  intros Hb Hp. rewrite incoming_nonblank by exact Hb.
  unfold try_except. rewrite Hp. reflexivity.
Qed.

Lemma incoming_pipeline_returns env form w r w1 :
  strip (default [] (Body form)) <> [] ->
  pipeline env (strip (default [] (Body form))) (From form) (received form w)
  = (Ok r, w1) ->
  incoming_whatsapp env form w = (Ok r, w1).
Proof.
  intros Hb Hp. rewrite incoming_nonblank by exact Hb.
  unfold try_except. now rewrite Hp.
Qed.

(** ** Claims about the webhook handler *)

(** C5: a request whose body is empty or made of whitespace only gets the
    empty reply, and the handler calls neither the generation service nor
    the provider and writes no file. *)
Theorem blank_body_empty_reply (env : Env) (form : Form) (w : World) :
  forallb isspace (default [] (Body form)) = true ->
  exists w',
    incoming_whatsapp env form w = (Ok {| messages := [] |}, w')
    /\ gemini_calls w' = gemini_calls w
    /\ files w' = files w
    /\ twilio_calls w' = twilio_calls w
    /\ generated_images w' = generated_images w.
Proof.
  intros H. apply strip_nil_iff in H.
  exists (received form w). rewrite (incoming_blank _ _ _ H).
  repeat split; reflexivity.
Qed.

Lemma blank_body_empty_reply_witness :
  forallb isspace (default [] (Body (demo_form "   "))) = true
  /\ exists w',
       incoming_whatsapp (demo_env (Ok (response_of []))) (demo_form "   ")
         empty_world = (Ok {| messages := [] |}, w')
       /\ gemini_calls w' = gemini_calls empty_world
       /\ files w' = files empty_world
       /\ twilio_calls w' = twilio_calls empty_world
       /\ generated_images w' = generated_images empty_world.
Proof.
  split; [reflexivity|].
  apply (blank_body_empty_reply (demo_env (Ok (response_of [])))
           (demo_form "   ") empty_world).
  reflexivity.
Defined.

(** C4: when the call to the generation service raises, the handler answers
    with the generic error text, and it has written no file, called the
    provider not at all and left the registry as it was. *)
Theorem generation_error_atomic (env : Env) (form : Form) (w : World)
    (e : exn) :
  strip (default [] (Body form)) <> [] ->
  generate_content env GEMINI_MODEL [strip (default [] (Body form))]
  = Raise e ->
  exists w',
    incoming_whatsapp env form w = (Ok {| messages := [ERROR_TEXT] |}, w')
    /\ files w' = files w
    /\ twilio_calls w' = twilio_calls w
    /\ generated_images w' = generated_images w.
Proof.
  intros Hb Hg. eexists. split.
  - apply (incoming_pipeline_raises env form w e); [exact Hb|].
    apply pipeline_generation_raises. exact Hg.
  - repeat split; reflexivity.
Qed.

Lemma generation_error_atomic_witness :
  strip (default [] (Body (demo_form "a red bicycle"))) <> []
  /\ exists w',
       incoming_whatsapp (demo_env (Raise timeout_exn))
         (demo_form "a red bicycle") empty_world
       = (Ok {| messages := [ERROR_TEXT] |}, w')
       /\ files w' = files empty_world
       /\ twilio_calls w' = twilio_calls empty_world
       /\ generated_images w' = generated_images empty_world.
Proof.
  split; [vm_compute; discriminate|].
  apply (generation_error_atomic (demo_env (Raise timeout_exn))
           (demo_form "a red bicycle") empty_world timeout_exn).
  - vm_compute; discriminate.
  - reflexivity.
Defined.

(** C3: the handler always returns a reply, never an exception; and whenever
    a step of the pipeline raises (the generation call, the reading of the
    response, the decoding or the write of the image, the provider call),
    the reply is the generic error text and the error is logged with its
    message. *)
Theorem pipeline_exception_caught (env : Env) (form : Form) (w : World) :
  (exists r w', incoming_whatsapp env form w = (Ok r, w'))
  /\ forall e,
       strip (default [] (Body form)) <> [] ->
       pipeline_failure env (strip (default [] (Body form))) (From form)
         (received form w) e ->
       exists w',
         incoming_whatsapp env form w
         = (Ok {| messages := [ERROR_TEXT] |}, w')
         /\ last (log w')
            = Some (ERROR, py "An error occurred: " ++ exn_str e).
Proof.
  split; [apply incoming_total|].
  intros e Hb Hf.
  destruct (pipeline_failure_raises _ _ _ _ _ Hf) as [w1 Hp].
  eexists. split.
  - apply (incoming_pipeline_raises env form w e w1 Hb Hp).
  - simpl. apply last_snoc.
Qed.

Lemma pipeline_exception_caught_witness :
  strip (default [] (Body (demo_form "a red bicycle"))) <> []
  /\ pipeline_failure failing_send_env
       (strip (default [] (Body (demo_form "a red bicycle"))))
       (From (demo_form "a red bicycle"))
       (received (demo_form "a red bicycle") empty_world) timeout_exn
  /\ exists w',
       incoming_whatsapp failing_send_env (demo_form "a red bicycle")
         empty_world = (Ok {| messages := [ERROR_TEXT] |}, w')
       /\ last (log w')
          = Some (ERROR, py "An error occurred: " ++ exn_str timeout_exn).
Proof.
  assert (Hb : strip (default [] (Body (demo_form "a red bicycle"))) <> [])
    by (vm_compute; discriminate).
  assert (Hf : pipeline_failure failing_send_env
                 (strip (default [] (Body (demo_form "a red bicycle"))))
                 (From (demo_form "a red bicycle"))
                 (received (demo_form "a red bicycle") empty_world)
                 timeout_exn).
  { eapply send_failure with (r := response_of [image_part png1])
                             (ps := [image_part png1]) (png := png1);
      try reflexivity.
    vm_compute. discriminate. }
  split; [exact Hb|]. split; [exact Hf|].
  exact (proj2 (pipeline_exception_caught failing_send_env
                  (demo_form "a red bicycle") empty_world)
           timeout_exn Hb Hf).
Defined.

Lemma success_not_fallback : ~ is_fallback SUCCESS_TEXT.
Proof.
  intros [(t & _ & H) | H].
  - symmetry in H. now apply no_image_not_success in H.
  - now apply success_not_could_not.
Qed.

Lemma error_not_fallback : ~ is_fallback ERROR_TEXT.
Proof.
  intros [(t & _ & H) | H].
  - symmetry in H. now apply no_image_not_error in H.
  - symmetry in H. now apply could_not_not_error.
Qed.

Lemma one_kind_success : one_kind SUCCESS_TEXT.
Proof.
  left. split; [reflexivity|]. split;
    [apply success_not_fallback | apply success_not_error].
Qed.

Lemma one_kind_error : one_kind ERROR_TEXT.
Proof.
  right; right. split; [reflexivity|]. split;
    [ intros H; symmetry in H; now apply success_not_error
    | apply error_not_fallback ].
Qed.

Lemma one_kind_fallback (txt : str) :
  one_kind (if truthy txt then NO_IMAGE_PREFIX ++ txt else COULD_NOT_TEXT).
Proof.
  right; left. destruct txt as [|c txt]; simpl.
  - split; [now right|]. split.
    + intros H. symmetry in H. now apply success_not_could_not.
    + apply could_not_not_error.
  - split; [left; exists (c :: txt); split; [discriminate | reflexivity]|].
    split; [apply no_image_not_success | apply no_image_not_error].
Qed.

(** C2: a request whose trimmed body is not empty gets exactly one
    acknowledgment message, which is the success text, a no-image fallback
    text or the generic error text, and only one of these. *)
Theorem exactly_one_acknowledgment (env : Env) (form : Form) (w : World) :
  strip (default [] (Body form)) <> [] ->
  exists m w',
    incoming_whatsapp env form w = (Ok {| messages := [m] |}, w')
    /\ one_kind m.
Proof.
  intros Hb.
  destruct (pipeline env (strip (default [] (Body form))) (From form)
              (received form w)) as [[r|e] w1] eqn:Hp.
  - rewrite (incoming_pipeline_returns _ _ _ _ _ Hb Hp).
    revert Hp.
    destruct (generate_content env GEMINI_MODEL
                [strip (default [] (Body form))]) as [rs|e] eqn:Hg;
      [| rewrite (pipeline_generation_raises _ _ _ _ _ Hg); discriminate].
    rewrite (pipeline_parts _ _ _ _ _ Hg).
    destruct (first_candidate_parts rs) as [ps|e]; [|discriminate].
    destruct (process_parts ps) as [[[|b bs]|] txt] eqn:Hl.
    + rewrite (handle_parts_no_image _ _ _ _ _ txt) by auto.
      intros [= <- <-]. eexists _, _. split; [reflexivity|].
      apply one_kind_fallback.
    + rewrite (handle_parts_image _ _ _ _ _ _ _ _ Hl).
      destruct (pil_png env (b :: bs)); [|discriminate].
      destruct (fs_lookup _ _) as [[d|]|]; try discriminate;
        (destruct (messages_create env _); [|discriminate]);
        intros [= <- <-]; eexists _, _; (split; [reflexivity|]);
        apply one_kind_success.
    + rewrite (handle_parts_no_image _ _ _ _ _ txt) by auto.
      intros [= <- <-]. eexists _, _. split; [reflexivity|].
      apply one_kind_fallback.
  - rewrite (incoming_pipeline_raises _ _ _ _ _ Hb Hp).
    eexists _, _. split; [reflexivity|]. apply one_kind_error.
Qed.

Lemma exactly_one_acknowledgment_witness :
  strip (default [] (Body (demo_form "a red bicycle"))) <> []
  /\ exists m w',
       incoming_whatsapp
         (demo_env (Ok (response_of [text_part (py "Here you go");
                                     image_part png1])))
         (demo_form "a red bicycle") empty_world
       = (Ok {| messages := [m] |}, w')
       /\ one_kind m.
Proof.
  split; [vm_compute; discriminate|].
  apply (exactly_one_acknowledgment
           (demo_env (Ok (response_of [text_part (py "Here you go");
                                       image_part png1])))
           (demo_form "a red bicycle") empty_world).
  vm_compute; discriminate.
Defined.

(** ** Claims about the reading of the response *)

Lemma first_candidate_parts_response_of (ps : list Part) :
  first_candidate_parts (response_of ps) = Ok ps.
Proof. reflexivity. Qed.

Lemma handle_parts_answering env r msg from ps w :
  handle_parts (answering env r) msg from ps w = handle_parts env msg from ps w.
Proof. reflexivity. Qed.

(** The reply of the handler depends on the response through the parts of
    its first candidate only. *)
Lemma incoming_answering env r form w :
  incoming_whatsapp (answering env r) form w
  = if truthy (strip (default [] (Body form))) then
      try_except
        (fun w1 =>
           match first_candidate_parts r with
           | Ok ps =>
               handle_parts env (strip (default [] (Body form))) (From form)
                 ps (asked (strip (default [] (Body form))) w1)
           | Raise e => (Raise e, asked (strip (default [] (Body form))) w1)
           end)
        on_error (received form w)
    else (Ok twiml_empty, received form w).
Proof.
  destruct (strip (default [] (Body form))) as [|c s] eqn:E.
  - simpl. now apply incoming_blank.
  - rewrite incoming_nonblank by congruence. rewrite E. simpl.
    unfold try_except.
    rewrite (pipeline_parts (answering env r) _ _ _ r) by reflexivity.
    destruct (first_candidate_parts r); reflexivity.
Qed.

Lemma fragments_app (ps qs : list Part) :
  fragments (ps ++ qs) = fragments ps ++ fragments qs.
Proof. apply omap_app. Qed.

(** C1, as stated, fails: with two image parts the file holds the second
    payload, and it changes when the later part is taken away. *)
Lemma first_image_not_used :
  demo_files [image_part png1; image_part png2]
  = [(py "generated_0a1b2c3d.png", File png2)]
  /\ demo_files [image_part png1] = [(py "generated_0a1b2c3d.png", File png1)]
  /\ demo_files [image_part png1; image_part png2]
     <> demo_files [image_part png1].
Proof.
  split; [reflexivity|]. split; [reflexivity|].
  vm_compute. discriminate.
Qed.

(** C1, amended: the loop keeps the payload of the last part that has no
    text and carries inline data; the outcome of the request (reply, files,
    provider calls) is the same whatever image parts came before it, as long
    as the text fragments are the same. *)
Theorem last_image_used (env : Env) (form : Form) (w : World)
    (ps ps' qs : list Part) (p : Part) :
  image_only p = true ->
  forallb (fun q => negb (image_only q)) qs = true ->
  fragments ps = fragments ps' ->
  fst (process_parts (ps ++ p :: qs)) = payload p
  /\ incoming_whatsapp (answering env (response_of (ps ++ p :: qs))) form w
     = incoming_whatsapp (answering env (response_of (ps' ++ p :: qs))) form w.
Proof.
  intros Hp Hqs Hfr.
  split; [now rewrite (process_parts_last _ _ _ Hp Hqs)|].
  rewrite !incoming_answering, !first_candidate_parts_response_of.
  destruct (truthy _); [|reflexivity].
  unfold try_except, handle_parts.
  rewrite !(process_parts_last _ _ _ Hp Hqs), !fragments_app, Hfr.
  reflexivity.
Qed.

Lemma last_image_used_witness :
  image_only (image_part png2) = true
  /\ forallb (fun q => negb (image_only q)) [text_part (py "Here you go")]
     = true
  /\ fragments [image_part png1] = fragments []
  /\ fst (process_parts ([image_part png1] ++ image_part png2
                         :: [text_part (py "Here you go")]))
     = payload (image_part png2)
  /\ incoming_whatsapp
       (answering (demo_env (Raise timeout_exn))
          (response_of ([image_part png1] ++ image_part png2
                        :: [text_part (py "Here you go")])))
       (demo_form "a red bicycle") empty_world
     = incoming_whatsapp
         (answering (demo_env (Raise timeout_exn))
            (response_of ([] ++ image_part png2
                          :: [text_part (py "Here you go")])))
         (demo_form "a red bicycle") empty_world.
Proof.
  split; [reflexivity|]. split; [reflexivity|]. split; [reflexivity|].
  apply (last_image_used (demo_env (Raise timeout_exn))
           (demo_form "a red bicycle") empty_world
           [image_part png1] [] [text_part (py "Here you go")]
           (image_part png2));
    reflexivity.
Defined.

(** C10: a part whose text is present only adds its text to the buffer, and
    the image is left as it was even when the part carries inline data; a
    captured payload always comes from a part without text; and the reply
    depends on the first candidate only. *)
Theorem text_part_never_image :
  (forall (st : option bytes * str) (p : Part) (t : str),
     text p = Some t -> process_part st p = (fst st, snd st ++ t ++ NL))
  /\ (forall (ps : list Part) (d : bytes),
        fst (process_parts ps) = Some d ->
        exists p, In p ps /\ text p = None /\ payload p = Some d)
  /\ (forall (env : Env) (form : Form) (w : World) (c : Candidate)
             (cs cs' : list Candidate),
        incoming_whatsapp (answering env {| candidates := Some (c :: cs) |})
          form w
        = incoming_whatsapp (answering env {| candidates := Some (c :: cs') |})
            form w).
Proof.
  split; [exact process_part_text|]. split.
  - intros ps d H. unfold process_parts in H.
    destruct (fold_process_origin ps (None, [])) as [E | (p & Hin & Hi & E)].
    + rewrite E in H. discriminate.
    + exists p. split; [exact Hin|]. split.
      * unfold image_only in Hi. now destruct (text p).
      * now rewrite <- E.
  - intros env form w c cs cs'. now rewrite !incoming_answering.
Qed.

Lemma text_part_never_image_witness :
  text captioned_image_part = Some (py "Here you go")
  /\ process_part (None, []) captioned_image_part
     = (None, [] ++ py "Here you go" ++ NL).
Proof.
  split; [reflexivity|].
  exact (proj1 text_part_never_image (None, []) captioned_image_part
           (py "Here you go") eq_refl).
Defined.

(** ** The working directory *)

Lemma fs_lookup_store_eq name d fs :
  fs_lookup name (fs_store name d fs) = Some (File d).
Proof.
  induction fs as [|[n i] fs IH]; simpl.
  - now rewrite decide_True.
  - destruct (decide (n = name)) as [E|E]; simpl.
    + now rewrite decide_True.
    + now rewrite decide_False.
Qed.

Lemma fs_lookup_store_ne name other d fs :
  other <> name ->
  fs_lookup other (fs_store name d fs) = fs_lookup other fs.
Proof.
  intros Hne. induction fs as [|[n i] fs IH]; simpl.
  - rewrite decide_False; [reflexivity | congruence].
  - destruct (decide (n = name)) as [E|E]; simpl.
    + subst n. rewrite !decide_False by congruence. reflexivity.
    + destruct (decide (n = other)); [reflexivity | exact IH].
Qed.

(** ** Claims about the replies *)

(** C6, as stated, fails: the text of the reply is not the fragments joined
    by newlines, a newline follows the last fragment too. *)
Lemma text_not_joined :
  demo_reply [text_part (py "Here you go")]
  = Ok {| messages := [NO_IMAGE_PREFIX ++ py "Here you go" ++ NL] |}
  /\ demo_reply [text_part (py "Here you go")]
     <> Ok {| messages :=
                [NO_IMAGE_PREFIX
                 ++ join NL (fragments [text_part (py "Here you go")])] |}.
Proof.
  split; [reflexivity|]. vm_compute. discriminate.
Qed.

(** C6, amended: when no part of the response carries inline data, the
    handler writes no file and calls the provider not at all; the reply is
    the no-image notice followed by the text fragments, each one followed by
    a newline, and it is the could-not-generate notice when there is no
    text fragment either. *)
Theorem text_only_fallback (env : Env) (form : Form) (w : World)
    (r : GenerateContentResponse) (ps : list Part) :
  strip (default [] (Body form)) <> [] ->
  generate_content env GEMINI_MODEL [strip (default [] (Body form))] = Ok r ->
  first_candidate_parts r = Ok ps ->
  Forall (fun p => inline_data p = None) ps ->
  exists m w',
    incoming_whatsapp env form w = (Ok {| messages := [m] |}, w')
    /\ files w' = files w
    /\ twilio_calls w' = twilio_calls w
    /\ (fragments ps <> [] ->
        m = NO_IMAGE_PREFIX ++ newline_terminated (fragments ps))
    /\ (fragments ps = [] -> m = COULD_NOT_TEXT).
Proof.
  intros Hb Hg Hp Hno.
  assert (Hl : process_parts ps = (None, newline_terminated (fragments ps))).
  { apply process_parts_text_only. apply forallb_forall.
    intros p Hin. rewrite Forall_forall in Hno.
    unfold image_only. apply list_elem_of_In in Hin.
    rewrite (Hno p Hin). now destruct (text p). }
  eexists _, _. split.
  - apply incoming_pipeline_returns; [exact Hb|].
    rewrite (pipeline_parts _ _ _ _ _ Hg), Hp.
    apply handle_parts_no_image. left. exact Hl.
  - split; [reflexivity|]. split; [reflexivity|]. split.
    + intros Hne. destruct (fragments ps) as [|t ts]; [congruence|].
      unfold newline_terminated. simpl.
      destruct t; reflexivity.
    + intros ->. reflexivity.
Qed.

Lemma text_only_fallback_witness :
  strip (default [] (Body (demo_form "a red bicycle"))) <> []
  /\ Forall (fun p => inline_data p = None) [text_part (py "Here you go")]
  /\ exists m w',
       incoming_whatsapp
         (demo_env (Ok (response_of [text_part (py "Here you go")])))
         (demo_form "a red bicycle") empty_world
       = (Ok {| messages := [m] |}, w')
       /\ files w' = files empty_world
       /\ twilio_calls w' = twilio_calls empty_world
       /\ (fragments [text_part (py "Here you go")] <> [] ->
           m = NO_IMAGE_PREFIX
               ++ newline_terminated (fragments [text_part (py "Here you go")]))
       /\ (fragments [text_part (py "Here you go")] = [] ->
           m = COULD_NOT_TEXT).
Proof.
  split; [vm_compute; discriminate|].
  split; [repeat constructor|].
  apply (text_only_fallback
           (demo_env (Ok (response_of [text_part (py "Here you go")])))
           (demo_form "a red bicycle") empty_world
           (response_of [text_part (py "Here you go")])
           [text_part (py "Here you go")]).
  - vm_compute; discriminate.
  - reflexivity.
  - reflexivity.
  - repeat constructor.
Defined.

(** C7, as stated, fails: a response may contain an inline image and still
    get another reply. The payload of a part that also has a text is not
    taken, an empty payload counts as no image, and a failure of the decoder
    or of the provider gives the generic error text. *)
Lemma image_part_not_enough :
  (demo_reply [captioned_image_part]
   = Ok {| messages := [NO_IMAGE_PREFIX ++ py "Here you go" ++ NL] |}
   /\ demo_files [captioned_image_part] = [])
  /\ (demo_reply [image_part []] = Ok {| messages := [COULD_NOT_TEXT] |}
      /\ demo_files [image_part []] = [])
  /\ (fst (incoming_whatsapp failing_decode_env (demo_form "a red bicycle")
             empty_world) = Ok {| messages := [ERROR_TEXT] |}
      /\ files (snd (incoming_whatsapp failing_decode_env
                       (demo_form "a red bicycle") empty_world)) = [])
  /\ fst (incoming_whatsapp failing_send_env (demo_form "a red bicycle")
            empty_world) = Ok {| messages := [ERROR_TEXT] |}.
Proof. repeat split; reflexivity. Qed.

(** C7, amended: when the last part without text that carries inline data
    has a non-empty payload, and the decoder, the write and the provider all
    succeed, the handler writes that one file, named after the random token,
    registers it, sends one media message whose URL is the base URL followed
    by [/images/] and the file name and whose caption quotes the prompt, and
    replies with the success text. *)
Theorem image_reply (env : Env) (form : Form) (w : World)
    (r : GenerateContentResponse) (ps qs : list Part) (p : Part)
    (b : Byte.byte) (bs png : bytes) (mi : MessageInstance) :
  let msg := strip (default [] (Body form)) in
  let name := py "generated_" ++ take 8 (uuid4_hex env) ++ py ".png" in
  let base := match NGROK_URL env with
              | Some u => u
              | None => py "https://4e8be9ba5910.ngrok-free.app"
              end in
  let rq := {| body := py "🎨 Here's your generated image for: '" ++ msg
                       ++ py "'";
               from_ := py "whatsapp:+14155238886";
               to := From form;
               media_url := [base ++ py "/images/" ++ name] |} in
  msg <> [] ->
  generate_content env GEMINI_MODEL [msg] = Ok r ->
  first_candidate_parts r = Ok (ps ++ p :: qs) ->
  image_only p = true ->
  forallb (fun q => negb (image_only q)) qs = true ->
  payload p = Some (b :: bs) ->
  pil_png env (b :: bs) = Ok png ->
  fs_lookup name (files w) <> Some Dir ->
  messages_create env rq = Ok mi ->
  exists w',
    incoming_whatsapp env form w
    = (Ok {| messages := [py "✅ Your image has been generated and is on its way!"] |}, w')
    /\ fs_lookup name (files w') = Some (File png)
    /\ (forall other, other <> name ->
          fs_lookup other (files w') = fs_lookup other (files w))
    /\ twilio_calls w' = twilio_calls w ++ [rq]
    /\ generated_images w' = <[name := true]> (generated_images w).
Proof.
  intros msg name base rq Hb Hg Hp Hi Hqs Hpay Hd Hf Hs.
  assert (Hl : process_parts (ps ++ p :: qs)
               = (Some (b :: bs), newline_terminated (fragments (ps ++ p :: qs)))).
  { rewrite (process_parts_last _ _ _ Hi Hqs). now rewrite Hpay. }
  eexists. split.
  - apply incoming_pipeline_returns; [exact Hb|].
    fold msg. rewrite (pipeline_parts _ _ _ _ _ Hg), Hp.
    rewrite (handle_parts_image _ _ _ _ _ _ _ _ Hl), Hd.
    change (files (asked msg (received form w))) with (files w).
    change (image_filename env) with name.
    change (media_message env msg (From form)) with rq.
    rewrite Hs.
    destruct (fs_lookup name (files w)) as [[d|]|]; [| congruence |];
      reflexivity.
  - simpl. split; [apply fs_lookup_store_eq|].
    split; [intros other Hne; now apply fs_lookup_store_ne|].
    split; reflexivity.
Qed.

Lemma image_reply_witness :
  (strip (default [] (Body (demo_form "a red bicycle"))) <> []
   /\ first_candidate_parts (response_of bicycle_parts)
      = Ok ([text_part (py "Here you go")] ++ image_part png1 :: [])
   /\ image_only (image_part png1) = true
   /\ payload (image_part png1) = Some png1
   /\ pil_png bicycle_env png1 = Ok png1
   /\ fs_lookup (py "generated_0a1b2c3d.png") (files empty_world) <> Some Dir
   /\ messages_create bicycle_env bicycle_request = Ok {| sid := py "SM0001" |})
  /\ exists w',
       incoming_whatsapp bicycle_env (demo_form "a red bicycle") empty_world
       = (Ok {| messages := [SUCCESS_TEXT] |}, w')
       /\ fs_lookup (py "generated_0a1b2c3d.png") (files w')
          = Some (File png1)
       /\ (forall other, other <> py "generated_0a1b2c3d.png" ->
             fs_lookup other (files w') = fs_lookup other (files empty_world))
       /\ twilio_calls w' = twilio_calls empty_world ++ [bicycle_request]
       /\ generated_images w'
          = <[py "generated_0a1b2c3d.png" := true]>
              (generated_images empty_world).
Proof.
  split.
  - repeat split; try reflexivity; vm_compute; discriminate.
  - apply (image_reply bicycle_env (demo_form "a red bicycle") empty_world
             (response_of bicycle_parts) [text_part (py "Here you go")] []
             (image_part png1) Byte.x89
             [Byte.x50; Byte.x4e; Byte.x47; Byte.x01] png1
             {| sid := py "SM0001" |});
      try reflexivity; vm_compute; discriminate.
Defined.

(** ** Claims about the image endpoint *)

Lemma ordinary_name_true dep name :
  ordinary_name dep name = true ->
  has_nul name = false /\ name_too_long dep name = false
  /\ dot_name name = false.
Proof.
  unfold ordinary_name. rewrite !andb_true_iff, !negb_true_iff. tauto.
Qed.

Lemma serve_image_missing dep filename w :
  ordinary_name dep filename = true ->
  fs_lookup filename (root_listing dep w) = None ->
  serve_image dep filename w
  = (Ok (Plain (py "Image not found") 404),
     snd (logger_error (py "Image not found: " ++ filename)
            (snd (logger_info (py "Serving image: " ++ filename) w)))).
Proof.
  intros Ho H. apply ordinary_name_true in Ho as (Hn & Hl & Hd).
  unfold serve_image, try_except_cls, bind, send_file, logger_info,
    logger_error, logger, ret, root_listing in *.
  cbn [files]. rewrite Hn, Hl, Hd, H. cbn [exn_cls root_error].
  now rewrite decide_True.
Qed.

Lemma serve_image_file dep filename w d :
  ordinary_name dep filename = true ->
  fs_lookup filename (root_listing dep w) = Some (File d) ->
  serve_image dep filename w
  = (Ok (SendFile d (py "image/png")),
     snd (logger_info (py "Serving image: " ++ filename) w)).
Proof.
  intros Ho H. apply ordinary_name_true in Ho as (Hn & Hl & Hd).
  unfold serve_image, try_except_cls, bind, send_file, logger_info,
    logger, root_listing in *.
  cbn [files]. now rewrite Hn, Hl, Hd, H.
Qed.

(** Every other name is neither served nor reported as missing: the error
    of the read is not the one that the endpoint catches. *)
Lemma serve_image_raises dep filename w :
  ordinary_name dep filename = false
  \/ fs_lookup filename (root_listing dep w) = Some Dir ->
  exists e, serve_image dep filename w
            = (Raise e, snd (logger_info (py "Serving image: " ++ filename) w))
            /\ exn_cls e <> FileNotFoundError.
Proof.
  intros H.
  unfold serve_image, try_except_cls, bind, send_file, logger_info, logger,
    root_listing in *.
  cbn [files].
  destruct (has_nul filename) eqn:Hn.
  { eexists. split; [reflexivity | discriminate]. }
  destruct (name_too_long dep filename) eqn:Hl.
  { eexists. split; [reflexivity | discriminate]. }
  destruct (dot_name filename) eqn:Hd.
  { eexists. split; [reflexivity | discriminate]. }
  destruct H as [H|H].
  { unfold ordinary_name in H. rewrite Hn, Hl, Hd in H. discriminate. }
  rewrite H. eexists. split; [reflexivity | discriminate].
Qed.

Lemma reply_text_inj (m1 m2 : str) (w1 w2 : World) :
  (Ok {| messages := [m1] |}, w1) = (Ok {| messages := [m2] |}, w2) ->
  m1 = m2 /\ w1 = w2.
Proof. intros H. now inversion H. Qed.

(** The success text is returned by the image branch only, after the file
    has been written. *)
Lemma incoming_success_inv env form w w' :
  incoming_whatsapp env form w = (Ok {| messages := [SUCCESS_TEXT] |}, w') ->
  exists png, fs_lookup (image_filename env) (files w') = Some (File png).
Proof.
  destruct (strip (default [] (Body form))) as [|c s] eqn:Hb.
  { rewrite (incoming_blank _ _ _ Hb). discriminate. }
  assert (Hne : strip (default [] (Body form)) <> []) by congruence.
  clear Hb.
  destruct (pipeline env (strip (default [] (Body form))) (From form)
              (received form w)) as [[r|e] w1] eqn:Hp.
  - rewrite (incoming_pipeline_returns _ _ _ _ _ Hne Hp).
    revert Hp.
    destruct (generate_content env GEMINI_MODEL
                [strip (default [] (Body form))]) as [rs|e] eqn:Hg;
      [| rewrite (pipeline_generation_raises _ _ _ _ _ Hg); discriminate].
    rewrite (pipeline_parts _ _ _ _ _ Hg).
    destruct (first_candidate_parts rs) as [ps|e]; [|discriminate].
    assert (Hfb : forall txt,
               (if truthy txt then NO_IMAGE_PREFIX ++ txt else COULD_NOT_TEXT)
               <> SUCCESS_TEXT).
    { intros txt. destruct (truthy txt);
        [apply no_image_not_success|].
      intros H. symmetry in H. now apply success_not_could_not. }
    destruct (process_parts ps) as [[[|b bs]|] txt] eqn:Hl.
    + rewrite (handle_parts_no_image _ _ _ _ _ txt) by auto.
      intros H1 H2. rewrite <- H1 in H2.
      apply reply_text_inj in H2 as [Hm _]. now apply Hfb in Hm.
    + rewrite (handle_parts_image _ _ _ _ _ _ _ _ Hl).
      destruct (pil_png env (b :: bs)) as [png|]; [|discriminate].
      destruct (fs_lookup _ _) as [[d|]|]; try discriminate;
        (destruct (messages_create env _); [|discriminate]);
        intros H1 H2; rewrite <- H1 in H2; injection H2 as <-;
        exists png; simpl; apply fs_lookup_store_eq.
    + rewrite (handle_parts_no_image _ _ _ _ _ txt) by auto.
      intros H1 H2. rewrite <- H1 in H2.
      apply reply_text_inj in H2 as [Hm _]. now apply Hfb in Hm.
  - rewrite (incoming_pipeline_raises _ _ _ _ _ Hne Hp).
    intros H. apply reply_text_inj in H as [Hm _]. symmetry in Hm.
    now apply success_not_error in Hm.
Qed.

(** C8, as stated, fails. A name without a stored file is not always
    answered with not-found: for the name [.] the read raises an error that
    the endpoint does not catch. And a file just written is not always
    served: the handler writes in the working directory, the endpoint reads
    in the directory of the application, and when the two differ the answer
    for the file of a successful request is not-found. *)
Lemma serve_image_not_round_trip :
  (fs_lookup (py ".") (root_listing cwd_deployment empty_world) = None
   /\ fst (serve_image cwd_deployment (py ".") empty_world)
      = Raise (root_error cwd_deployment IsADirectoryError (py ".")))
  /\ (incoming_whatsapp bicycle_env (demo_form "a red bicycle") empty_world
      = (Ok {| messages := [SUCCESS_TEXT] |}, bicycle_world)
      /\ fs_lookup (image_filename bicycle_env) (files bicycle_world)
         = Some (File png1)
      /\ fst (serve_image elsewhere_deployment (image_filename bicycle_env)
                bicycle_world)
         = Ok (Plain (py "Image not found") 404)).
Proof. repeat split; vm_compute; reflexivity. Qed.

(** C8, amended: a name that the interpreter and the operating system
    accept, other than the empty name, [.] and [..], and that has no entry
    in the directory of the application is answered with the not-found
    response; and when the directory of the application is the working
    directory, then after a request that was answered with the success text
    the image endpoint returns, for the name that request wrote, exactly
    the bytes the directory holds under that name. *)
Theorem serve_image_round_trip (dep : Deployment) (env : Env) (form : Form)
    (w w' : World) (filename : str) :
  (ordinary_name dep filename = true ->
   fs_lookup filename (root_listing dep w) = None ->
   fst (serve_image dep filename w) = Ok (Plain (py "Image not found") 404))
  /\ (root_elsewhere dep = None ->
      ordinary_name dep (image_filename env) = true ->
      incoming_whatsapp env form w
      = (Ok {| messages := [SUCCESS_TEXT] |}, w') ->
      exists png,
        fs_lookup (image_filename env) (files w') = Some (File png)
        /\ fst (serve_image dep (image_filename env) w')
           = Ok (SendFile png (py "image/png"))).
Proof.
  split.
  - intros Ho H. now rewrite (serve_image_missing _ _ _ Ho H).
  - intros Hroot Ho H. destruct (incoming_success_inv _ _ _ _ H) as [png Hpng].
    exists png. split; [exact Hpng|].
    rewrite (serve_image_file dep _ _ png Ho); [reflexivity|].
    unfold root_listing. now rewrite Hroot.
Qed.

Lemma serve_image_round_trip_witness :
  (ordinary_name cwd_deployment (py "generated_ffffffff.png") = true
   /\ fs_lookup (py "generated_ffffffff.png")
        (root_listing cwd_deployment empty_world) = None
   /\ root_elsewhere cwd_deployment = None
   /\ ordinary_name cwd_deployment (image_filename bicycle_env) = true
   /\ incoming_whatsapp bicycle_env (demo_form "a red bicycle") empty_world
      = (Ok {| messages := [SUCCESS_TEXT] |}, bicycle_world))
  /\ fst (serve_image cwd_deployment (py "generated_ffffffff.png")
            empty_world)
     = Ok (Plain (py "Image not found") 404)
  /\ exists png,
       fs_lookup (image_filename bicycle_env) (files bicycle_world)
       = Some (File png)
       /\ fst (serve_image cwd_deployment (image_filename bicycle_env)
                 bicycle_world)
          = Ok (SendFile png (py "image/png")).
Proof.
  assert (Ho1 : ordinary_name cwd_deployment (py "generated_ffffffff.png")
                = true) by (vm_compute; reflexivity).
  assert (H1 : fs_lookup (py "generated_ffffffff.png")
                 (root_listing cwd_deployment empty_world) = None)
    by reflexivity.
  assert (Ho2 : ordinary_name cwd_deployment (image_filename bicycle_env)
                = true) by (vm_compute; reflexivity).
  assert (H2 : incoming_whatsapp bicycle_env (demo_form "a red bicycle")
                 empty_world
               = (Ok {| messages := [SUCCESS_TEXT] |}, bicycle_world))
    by reflexivity.
  split; [repeat split; assumption|].
  destruct (serve_image_round_trip cwd_deployment bicycle_env
              (demo_form "a red bicycle") empty_world bicycle_world
              (py "generated_ffffffff.png"))
    as [Hmiss Hround].
  split; [exact (Hmiss Ho1 H1) | exact (Hround eq_refl Ho2 H2)].
Defined.

Example serve_bicycle_image :
  fst (serve_image cwd_deployment (py "generated_0a1b2c3d.png") bicycle_world)
  = Ok (SendFile png1 (py "image/png")).
Proof. vm_compute. reflexivity. Qed.

(** ** The cleanup at exit *)

Lemma fs_lookup_None name fs :
  fs_lookup name fs = None <-> name ∉ map fst fs.
Proof.
  induction fs as [|[n i] fs IH]; simpl.
  - split; [intros _; apply not_elem_of_nil | reflexivity].
  - rewrite not_elem_of_cons. destruct (decide (n = name)) as [E|E].
    + split; [discriminate | intros [H _]; congruence].
    + rewrite IH. split; [intros H; split; [congruence | exact H] | tauto].
Qed.

Lemma fs_lookup_unlink_ne name other fs :
  other <> name -> fs_lookup other (fs_unlink name fs) = fs_lookup other fs.
Proof.
  intros Hne. induction fs as [|[n i] fs IH]; simpl; [reflexivity|].
  destruct (decide (n = name)) as [E|E]; simpl.
  - subst n. rewrite decide_False by congruence. reflexivity.
  - destruct (decide (n = other)); [reflexivity | exact IH].
Qed.

Lemma fs_lookup_unlink_eq name fs :
  NoDup (map fst fs) -> fs_lookup name (fs_unlink name fs) = None.
Proof.
  induction fs as [|[n i] fs IH]; simpl; intros Hnd; [reflexivity|].
  apply NoDup_cons in Hnd as [Hn Hnd].
  destruct (decide (n = name)) as [E|E]; simpl.
  - subst n. now apply fs_lookup_None.
  - rewrite decide_False by exact E. now apply IH.
Qed.

Lemma fs_unlink_names name fs :
  forall n, n ∈ map fst (fs_unlink name fs) -> n ∈ map fst fs.
Proof.
  induction fs as [|[m i] fs IH]; simpl; intros n; [tauto|].
  destruct (decide (m = name)); simpl.
  - apply list_elem_of_further.
  - rewrite !elem_of_cons. intros [E|H]; [now left | right; now apply IH].
Qed.

Lemma NoDup_unlink name fs :
  NoDup (map fst fs) -> NoDup (map fst (fs_unlink name fs)).
Proof.
  induction fs as [|[n i] fs IH]; simpl; intros Hnd; [exact Hnd|].
  apply NoDup_cons in Hnd as [Hn Hnd].
  destruct (decide (n = name)); simpl; [exact Hnd|].
  apply NoDup_cons. split; [|now apply IH].
  intros H. apply Hn. now apply fs_unlink_names in H.
Qed.

Lemma remove_each_cons (n : str) (rest : list str) (w : World) :
  remove_each (n :: rest) w
  = match os_remove n w with
    | (Ok _, w1) =>
        remove_each rest (snd (logger_info (py "Cleaned up: " ++ n) w1))
    | (Raise e, w1) => (Raise e, w1)
    end.
Proof.
  simpl. unfold bind. destruct (os_remove n w) as [[[]|e] w1]; reflexivity.
Qed.

Lemma remove_each_app (a b : list str) (w : World) :
  remove_each (a ++ b) w
  = match remove_each a w with
    | (Ok _, w1) => remove_each b w1
    | (Raise e, w1) => (Raise e, w1)
    end.
Proof.
  revert w. induction a as [|n a IH]; intros w; [reflexivity|].
  rewrite <- app_comm_cons, !remove_each_cons.
  destruct (os_remove n w) as [[[]|e] w1]; [apply IH | reflexivity].
Qed.

(** When every name is a file, the loop deletes them all. *)
Lemma remove_each_all (names : list str) (w : World) :
  NoDup (map fst (files w)) ->
  NoDup names ->
  Forall (fun n => is_file (files w) n = true) names ->
  exists w',
    remove_each names w = (Ok tt, w')
    /\ generated_images w' = generated_images w
    /\ NoDup (map fst (files w'))
    /\ forall n,
         fs_lookup n (files w')
         = if decide (n ∈ names) then None else fs_lookup n (files w).
Proof.
  revert w. induction names as [|a names IH]; intros w Hfs Hnd Hall.
  - exists w. split; [reflexivity|]. split; [reflexivity|].
    split; [exact Hfs|].
    intros n. rewrite decide_False; [reflexivity | apply not_elem_of_nil].
  - apply NoDup_cons in Hnd as [Ha Hnd].
    apply Forall_cons in Hall as [Hfa Hall].
    unfold is_file in Hfa.
    destruct (fs_lookup a (files w)) as [[d|]|] eqn:Hl; try discriminate.
    set (w1 := snd (logger_info (py "Cleaned up: " ++ a)
                      (set_files (fs_unlink a (files w)) w))).
    assert (Hstep : remove_each (a :: names) w = remove_each names w1).
    { rewrite remove_each_cons. unfold os_remove. now rewrite Hl. }
    destruct (IH w1) as (w' & Hrun & Hreg & Hnd' & Hlook).
    + now apply NoDup_unlink.
    + exact Hnd.
    + apply Forall_forall. intros n Hn. rewrite Forall_forall in Hall.
      unfold is_file. simpl. rewrite fs_lookup_unlink_ne.
      * exact (Hall n Hn).
      * intros ->. contradiction.
    + exists w'. rewrite Hstep. split; [exact Hrun|].
      split; [exact Hreg|]. split; [exact Hnd'|].
      intros n. rewrite Hlook. simpl.
      destruct (decide (n = a)) as [->|Hne].
      * rewrite (decide_True (P := a ∈ a :: names)) by apply list_elem_of_here.
        destruct (decide (a ∈ names)); [reflexivity|].
        now apply fs_lookup_unlink_eq.
      * rewrite (fs_lookup_unlink_ne _ _ _ Hne).
        destruct (decide (n ∈ names)) as [Hin|Hin].
        -- rewrite decide_True; [reflexivity | now apply list_elem_of_further].
        -- rewrite decide_False; [reflexivity|].
           rewrite elem_of_cons. tauto.
Qed.

(** The loop stops at the first name that is not a file: the names before
    it are deleted, the others are left as they were. *)
Lemma remove_each_stops (pre post : list str) (d : str) (w : World) :
  NoDup (map fst (files w)) ->
  NoDup (pre ++ d :: post) ->
  Forall (fun n => is_file (files w) n = true) pre ->
  fs_lookup d (files w) = Some Dir ->
  exists w',
    remove_each (pre ++ d :: post) w = (Raise (is_a_directory d), w')
    /\ generated_images w' = generated_images w
    /\ forall n,
         fs_lookup n (files w')
         = if decide (n ∈ pre) then None else fs_lookup n (files w).
Proof.
  intros Hfs Hnd Hall Hd.
  apply NoDup_app in Hnd as (Hpre & Hdis & _).
  destruct (remove_each_all pre w Hfs Hpre Hall)
    as (w1 & Hrun & Hreg & _ & Hlook).
  exists w1. rewrite remove_each_app, Hrun.
  assert (Hd1 : fs_lookup d (files w1) = Some Dir).
  { rewrite Hlook. rewrite decide_False; [exact Hd|].
    intros Hin. apply (Hdis d Hin). apply list_elem_of_here. }
  split; [|split; [exact Hreg | exact Hlook]].
  rewrite remove_each_cons. unfold os_remove. now rewrite Hd1.
Qed.

(** The registry takes no part in the cleanup. *)
Lemma remove_each_registry (names : list str) (g : gmap str bool) (w : World) :
  remove_each names (set_generated_images g w)
  = (fst (remove_each names w),
     set_generated_images g (snd (remove_each names w))).
Proof.
  revert w. induction names as [|a names IH]; intros w; [reflexivity|].
  rewrite !remove_each_cons. unfold os_remove. simpl.
  destruct (fs_lookup a (files w)) as [[d|]|]; try reflexivity.
  apply (IH (mk_world (fs_unlink a (files w)) (generated_images w)
               (gemini_calls w) (twilio_calls w)
               (log w ++ [(INFO, py "Cleaned up: " ++ a)]))).
Qed.

Lemma cleanup_registry (g : gmap str bool) (w : World) :
  cleanup_generated_images (set_generated_images g w)
  = (fst (cleanup_generated_images w),
     set_generated_images g (snd (cleanup_generated_images w))).
Proof.
  unfold cleanup_generated_images, try_except, bind, glob_generated.
  simpl. rewrite remove_each_registry.
  destruct (remove_each _ w) as [[[]|e] w1]; reflexivity.
Qed.

Lemma cleanup_unfold (w : World) :
  cleanup_generated_images w
  = match remove_each (generated_names w) w with
    | (Ok a, w') => (Ok a, w')
    | (Raise e, w') =>
        (Ok tt, snd (logger_error (py "Cleanup error: " ++ exn_str e) w'))
    end.
Proof.
  unfold cleanup_generated_images, try_except, bind, glob_generated,
    generated_names.
  destruct (remove_each _ w) as [[a|e] w']; reflexivity.
Qed.

Lemma cleanup_error_text :
  py "Cleanup error: [Errno 21] Is a directory: '"
  = py "Cleanup error: " ++ py "[Errno 21] Is a directory: '".
Proof. vm_compute. reflexivity. Qed.

Lemma set_generated_images_same (w : World) :
  set_generated_images (generated_images w) w = w.
Proof. now destruct w. Qed.

(** C9, as stated, fails: the entry that cannot be deleted ends the cleanup,
    and the matching file listed after it stays, although it could have been
    deleted. *)
Lemma cleanup_stops_early :
  files (snd (cleanup_generated_images cluttered_world))
  = [ (py "generated_bbbbbbbb.png", Dir);
      (py "generated_cccccccc.png", File png2) ]
  /\ generated_pattern (py "generated_cccccccc.png") = true
  /\ fst (os_remove (py "generated_cccccccc.png")
            (snd (cleanup_generated_images cluttered_world))) = Ok tt.
Proof. repeat split; reflexivity. Qed.

(** C9, amended: the cleanup lets no exception out and neither reads nor
    changes the registry. It visits the entries that match the pattern in
    listing order: when all of them can be deleted, none is left; when one
    cannot, the error is logged and the cleanup ends there, so that the
    entries before it are deleted and that entry and all later ones stay. *)
Theorem cleanup_until_first_failure (w : World) :
  NoDup (map fst (files w)) ->
  let w' := snd (cleanup_generated_images w) in
  fst (cleanup_generated_images w) = Ok tt
  /\ generated_images w' = generated_images w
  /\ (forall g,
        files (snd (cleanup_generated_images (set_generated_images g w)))
        = files w')
  /\ (Forall (fun n => is_file (files w) n = true) (generated_names w) ->
      forall n,
        fs_lookup n (files w')
        = if generated_pattern n then None else fs_lookup n (files w))
  /\ (forall pre d post,
        generated_names w = pre ++ d :: post ->
        Forall (fun n => is_file (files w) n = true) pre ->
        is_file (files w) d = false ->
        (forall n,
           fs_lookup n (files w')
           = if decide (n ∈ pre) then None else fs_lookup n (files w))
        /\ last (log w')
           = Some (ERROR,
                   py "Cleanup error: [Errno 21] Is a directory: '" ++ d
                   ++ py "'")).
Proof.
  intros Hfs w'.
  assert (Hnd : NoDup (generated_names w)) by now apply NoDup_filter.
  split; [|split; [|split; [|split]]].
  - rewrite cleanup_unfold.
    destruct (remove_each _ w) as [[[]|e] w1]; reflexivity.
  - pose proof (cleanup_registry (generated_images w) w) as H.
    rewrite set_generated_images_same in H.
    subst w'. rewrite H at 1. reflexivity.
  - intros g. now rewrite cleanup_registry.
  - intros Hall n.
    destruct (remove_each_all _ w Hfs Hnd Hall) as (w1 & Hrun & _ & _ & Hlook).
    subst w'. rewrite cleanup_unfold, Hrun. simpl. rewrite Hlook.
    unfold generated_names.
    destruct (generated_pattern n) eqn:Hpat.
    + destruct (decide _) as [Hin|Hin]; [reflexivity|].
      apply fs_lookup_None. intros Hn. apply Hin.
      apply list_elem_of_filter. now split.
    + rewrite decide_False; [reflexivity|].
      rewrite list_elem_of_filter. intros [Hp _]. congruence.
  - intros pre d post Hnames Hall Hd.
    assert (Hdir : fs_lookup d (files w) = Some Dir).
    { assert (Hin : d ∈ generated_names w).
      { rewrite Hnames. apply elem_of_app. right. apply list_elem_of_here. }
      apply list_elem_of_filter in Hin as [_ Hin].
      unfold is_file in Hd.
      destruct (fs_lookup d (files w)) as [[c|]|] eqn:Hl;
        [discriminate | reflexivity |].
      now apply fs_lookup_None in Hl. }
    rewrite Hnames in Hnd.
    destruct (remove_each_stops pre post d w Hfs Hnd Hall Hdir)
      as (w1 & Hrun & _ & Hlook).
    subst w'. rewrite cleanup_unfold, Hnames, Hrun.
    unfold logger_error, logger. cbn [snd files log].
    split; [exact Hlook|].
    rewrite last_snoc. unfold is_a_directory. cbn [exn_str].
    rewrite cleanup_error_text, <- !app_assoc. reflexivity.
Qed.

Lemma cleanup_until_first_failure_witness :
  NoDup (map fst (files cluttered_world))
  /\ generated_names cluttered_world
     = [py "generated_aaaaaaaa.png"] ++ py "generated_bbbbbbbb.png"
       :: [py "generated_cccccccc.png"]
  /\ is_file (files cluttered_world) (py "generated_bbbbbbbb.png") = false
  /\ fst (cleanup_generated_images cluttered_world) = Ok tt
  /\ (forall n,
        fs_lookup n (files (snd (cleanup_generated_images cluttered_world)))
        = if decide (n ∈ [py "generated_aaaaaaaa.png"]) then None
          else fs_lookup n (files cluttered_world))
  /\ last (log (snd (cleanup_generated_images cluttered_world)))
     = Some (ERROR,
             py "Cleanup error: [Errno 21] Is a directory: '"
             ++ py "generated_bbbbbbbb.png" ++ py "'").
Proof.
  assert (Hfs : NoDup (map fst (files cluttered_world))).
  { apply (bool_decide_unpack _). vm_compute. exact I. }
  assert (Hnames : generated_names cluttered_world
                   = [py "generated_aaaaaaaa.png"]
                     ++ py "generated_bbbbbbbb.png"
                     :: [py "generated_cccccccc.png"]) by reflexivity.
  assert (Hd : is_file (files cluttered_world) (py "generated_bbbbbbbb.png")
               = false) by reflexivity.
  destruct (cleanup_until_first_failure cluttered_world Hfs)
    as (Hok & _ & _ & _ & Hstop).
  destruct (Hstop [py "generated_aaaaaaaa.png"] (py "generated_bbbbbbbb.png")
              [py "generated_cccccccc.png"] Hnames) as [Hlook Hlog].
  - repeat constructor.
  - exact Hd.
  - repeat split; assumption.
Defined.

(** * Further properties of the routines *)

(** ** What a request does to the world *)

Lemma fs_unlink_store_absent name d fs :
  fs_lookup name fs = None -> fs_unlink name (fs_store name d fs) = fs.
Proof.
  induction fs as [|[n i] fs IH]; simpl; intros H.
  - now rewrite decide_True.
  - destruct (decide (n = name)); [discriminate|]. simpl.
    rewrite decide_False by assumption. f_equal. now apply IH.
Qed.

Lemma failed_save_frame env d e w :
  let w' := snd (failed_save env (image_filename env) d e w) in
  gemini_calls w' = gemini_calls w
  /\ (untouched w w' \/ emptied env w w').
Proof.
  unfold failed_save. destruct (encoder_raises env d).
  - destruct (fs_lookup (image_filename env) (files w)) as [[old|]|] eqn:Hf;
      cbn [snd]; (split; [reflexivity|]).
    + right. split; [eauto|]. repeat split.
    + left. repeat split.
    + left. unfold untouched, set_files. cbn [files generated_images
        twilio_calls]. split; [now apply fs_unlink_store_absent|].
      split; reflexivity.
  - cbn [snd]. split; [reflexivity|]. left. repeat split.
Qed.

Lemma handle_parts_frame env msg from ps w r w' :
  handle_parts env msg from ps w = (r, w') ->
  gemini_calls w' = gemini_calls w /\ effect env msg from w w'.
Proof.
  unfold effect.
  destruct (process_parts ps) as [[[|b bs]|] txt] eqn:Hl.
  - rewrite (handle_parts_no_image _ _ _ _ _ txt) by auto.
    intros [= <- <-]. split; [reflexivity|]. left. repeat split.
  - rewrite (handle_parts_image _ _ _ _ _ _ _ _ Hl).
    destruct (pil_png env (b :: bs)) as [png|e].
    + destruct (fs_lookup (image_filename env) (files w)) as [[d|]|] eqn:Hf.
      * destruct (messages_create env _); intros [= <- <-];
          (split; [reflexivity|]); right; right; exists png;
          (split; [congruence|]); repeat split.
      * intros [= <- <-]. split; [reflexivity|]. left. repeat split.
      * destruct (messages_create env _); intros [= <- <-];
          (split; [reflexivity|]); right; right; exists png;
          (split; [congruence|]); repeat split.
    + intros [= <- <-].
      destruct (failed_save_frame env (b :: bs) e w) as [Hg [Hu|He]];
        (split; [exact Hg|]); [now left | right; now left].
  - rewrite (handle_parts_no_image _ _ _ _ _ txt) by auto.
    intros [= <- <-]. split; [reflexivity|]. left. repeat split.
Qed.

Lemma pipeline_frame env msg from w r w' :
  pipeline env msg from w = (r, w') ->
  gemini_calls w' = gemini_calls w ++ [(GEMINI_MODEL, [msg])]
  /\ effect env msg from w w'.
Proof.
  destruct (generate_content env GEMINI_MODEL [msg]) as [rs|e] eqn:Hg.
  - rewrite (pipeline_parts _ _ _ _ _ Hg).
    destruct (first_candidate_parts rs) as [ps|e].
    + intros H. apply handle_parts_frame in H. exact H.
    + intros [= <- <-]. split; [reflexivity|]. left. repeat split.
  - rewrite (pipeline_generation_raises _ _ _ _ _ Hg).
    intros [= <- <-]. split; [reflexivity|]. left. repeat split.
Qed.

Lemma incoming_frame env form w r w' :
  incoming_whatsapp env form w = (r, w') ->
  (strip (default [] (Body form)) = [] /\ gemini_calls w' = gemini_calls w
   /\ untouched w w')
  \/ (strip (default [] (Body form)) <> []
      /\ gemini_calls w'
         = gemini_calls w ++ [(GEMINI_MODEL, [strip (default [] (Body form))])]
      /\ effect env (strip (default [] (Body form))) (From form) w w').
Proof.
  destruct (strip (default [] (Body form))) as [|c s] eqn:Hb.
  - rewrite (incoming_blank _ _ _ Hb). intros [= <- <-].
    left. repeat split.
  - assert (Hne : strip (default [] (Body form)) <> []) by congruence.
    rewrite <- Hb. rewrite (incoming_nonblank _ _ _ Hne).
    unfold try_except.
    destruct (pipeline env _ (From form) (received form w))
      as [[r1|e] w1] eqn:Hp;
      apply pipeline_frame in Hp; intros [= <- <-];
      right; (split; [exact Hne|]); exact Hp.
Qed.

(** The directory after a request: as before, or with the file of the
    request stored, empty or with the image. *)
Lemma incoming_files env form w :
  files (snd (incoming_whatsapp env form w)) = files w
  \/ exists d,
       fs_lookup (image_filename env) (files w) <> Some Dir
       /\ files (snd (incoming_whatsapp env form w))
          = fs_store (image_filename env) d (files w).
Proof.
  destruct (incoming_whatsapp env form w) as [r w'] eqn:H. cbn [snd].
  apply incoming_frame in H
    as [(_ & _ & Hf & _)
       | (_ & _ & [(Hf & _) | [((old & Ho) & Hf & _) | (png & Hd & Hf & _)]])].
  - now left.
  - now left.
  - right. exists []. split; [congruence | exact Hf].
  - right. exists png. split; [exact Hd | exact Hf].
Qed.

Lemma fs_store_names name d fs n :
  n ∈ map fst (fs_store name d fs) -> n = name \/ n ∈ map fst fs.
Proof.
  induction fs as [|[m i] fs IH]; simpl.
  - rewrite list_elem_of_singleton. now left.
  - destruct (decide (m = name)); simpl; rewrite !elem_of_cons.
    + tauto.
    + intros [E|H]; [tauto|]. destruct (IH H); tauto.
Qed.

Lemma NoDup_store name d fs :
  NoDup (map fst fs) -> NoDup (map fst (fs_store name d fs)).
Proof.
  induction fs as [|[m i] fs IH]; simpl; intros Hnd.
  - apply NoDup_singleton.
  - apply NoDup_cons in Hnd as [Hm Hnd].
    destruct (decide (m = name)); simpl; apply NoDup_cons.
    + split; assumption.
    + split; [|now apply IH].
      intros H. apply fs_store_names in H as [E|H]; [congruence | contradiction].
Qed.

Lemma fs_lookup_store name d fs n :
  fs_lookup n (fs_store name d fs)
  = if decide (n = name) then Some (File d) else fs_lookup n fs.
Proof.
  destruct (decide (n = name)) as [->|Hne].
  - apply fs_lookup_store_eq.
  - now apply fs_lookup_store_ne.
Qed.


(** The encoder fails on a name that the bicycle request has written: the
    file is left empty; on a name that does not exist, nothing is left. *)
Example encoder_failure_truncates :
  let w' := snd (incoming_whatsapp failing_encoder_env
                   (demo_form "a blue car") bicycle_world) in
  fst (incoming_whatsapp failing_encoder_env (demo_form "a blue car")
         bicycle_world) = Ok {| messages := [ERROR_TEXT] |}
  /\ files bicycle_world = [(py "generated_0a1b2c3d.png", File png1)]
  /\ files w' = [(py "generated_0a1b2c3d.png", File [])]
  /\ twilio_calls w' = twilio_calls bicycle_world
  /\ files (snd (incoming_whatsapp failing_encoder_env
                   (demo_form "a blue car") empty_world)) = [].
Proof. repeat split; vm_compute; reflexivity. Qed.

(** X2: a request never deletes or renames an entry of the directory. Every
    entry other than its own file name is as before, an entry that existed
    still exists, the listing stays free of duplicates, and a directory that
    bears the file name is not replaced. *)
Theorem request_keeps_directory (env : Env) (form : Form) (w : World) :
  NoDup (map fst (files w)) ->
  let w' := snd (incoming_whatsapp env form w) in
  NoDup (map fst (files w'))
  /\ (forall n, n <> image_filename env ->
        fs_lookup n (files w') = fs_lookup n (files w))
  /\ (forall n, is_Some (fs_lookup n (files w)) ->
        is_Some (fs_lookup n (files w')))
  /\ (fs_lookup (image_filename env) (files w) = Some Dir ->
      files w' = files w).
Proof.
  intros Hnd w'.
  destruct (incoming_whatsapp env form w) as [r w1] eqn:H. subst w'.
  cbn [snd].
  assert (Hc : files w1 = files w
               \/ exists d,
                    fs_lookup (image_filename env) (files w) <> Some Dir
                    /\ files w1 = fs_store (image_filename env) d (files w)).
  { pose proof (incoming_files env form w) as Hc. now rewrite H in Hc. }
  destruct Hc as [Hf | (png & Hdir & Hf)]; rewrite Hf.
  - repeat split; auto.
  - split; [now apply NoDup_store|]. split; [|split].
    + intros n Hne. now apply fs_lookup_store_ne.
    + intros n Hn. rewrite fs_lookup_store.
      destruct (decide _); [eauto | exact Hn].
    + intros Hd. contradiction.
Qed.

Lemma request_keeps_directory_witness :
  NoDup (map fst (files cluttered_world))
  /\ NoDup (map fst (files (snd (incoming_whatsapp bicycle_env
                                   (demo_form "a red bicycle")
                                   cluttered_world))))
  /\ fs_lookup (py "generated_cccccccc.png")
       (files (snd (incoming_whatsapp bicycle_env (demo_form "a red bicycle")
                      cluttered_world)))
     = fs_lookup (py "generated_cccccccc.png") (files cluttered_world).
Proof.
  assert (Hnd : NoDup (map fst (files cluttered_world))).
  { apply (bool_decide_unpack _). vm_compute. exact I. }
  destruct (request_keeps_directory bicycle_env (demo_form "a red bicycle")
              cluttered_world Hnd) as (H1 & H2 & _).
  split; [exact Hnd|]. split; [exact H1|].
  apply H2. vm_compute. discriminate.
Defined.

(** X3: the registry only grows. A request keeps every key that was there,
    changes no key other than its own file name, and keeps all values true
    if they were; no request removes a key. *)
Theorem registry_only_grows (env : Env) (form : Form) (w : World) :
  let g := generated_images w in
  let g' := generated_images (snd (incoming_whatsapp env form w)) in
  (forall k, is_Some (g !! k) -> is_Some (g' !! k))
  /\ (forall k, k <> image_filename env -> g' !! k = g !! k)
  /\ (map_Forall (fun _ v => v = true) g ->
      map_Forall (fun _ v => v = true) g').
Proof.
  intros g g'. subst g g'.
  destruct (incoming_whatsapp env form w) as [r w1] eqn:H. cbn [snd].
  assert (Hc : generated_images w1 = generated_images w
               \/ generated_images w1
                  = <[image_filename env := true]> (generated_images w)).
  { apply incoming_frame in H
      as [(_ & _ & _ & Hu & _)
         | (_ & _ & [(_ & Hu & _)
                    | [(_ & _ & Hu & _) | (png & _ & _ & Hr & _)]])];
      auto. }
  destruct Hc as [-> | ->]; [auto|].
  split; [|split].
  - intros k Hk. rewrite lookup_insert. destruct (decide _); [eauto | exact Hk].
  - intros k Hne. now rewrite lookup_insert_ne.
  - intros Hall. now apply map_Forall_insert_2.
Qed.

Lemma registry_only_grows_witness :
  is_Some (generated_images bicycle_world !! py "generated_0a1b2c3d.png")
  /\ is_Some (generated_images
                (snd (incoming_whatsapp (demo_env (Raise timeout_exn))
                        (demo_form "a blue car") bicycle_world))
              !! py "generated_0a1b2c3d.png").
Proof.
  assert (H : is_Some (generated_images bicycle_world
                       !! py "generated_0a1b2c3d.png")).
  { exists true. vm_compute. reflexivity. }
  split; [exact H|].
  exact (proj1 (registry_only_grows (demo_env (Raise timeout_exn))
                  (demo_form "a blue car") bicycle_world) _ H).
Defined.

(** ** The trimmed body *)

Lemma lstrip_split (s : str) :
  exists a, s = a ++ lstrip s /\ forallb isspace a = true.
Proof.
  induction s as [|c s (a & E & Ha)]; [now exists []|].
  simpl. destruct (isspace c) eqn:Hc.
  - exists (c :: a). simpl. rewrite Hc, Ha. split; [now f_equal | reflexivity].
  - now exists [].
Qed.

Lemma rstrip_split (s : str) :
  exists b, s = rstrip s ++ b /\ forallb isspace b = true.
Proof.
  destruct (lstrip_split (rev s)) as (a & E & Ha).
  exists (rev a). split.
  - unfold rstrip. rewrite <- rev_app_distr, <- E. now rewrite rev_involutive.
  - now rewrite forallb_isspace_rev.
Qed.

(** X4: the prompt that the handler works with is the body without the
    whitespace at its two ends: the body is the prompt between two runs of
    whitespace, the prompt neither starts nor ends with a whitespace
    character, and trimming it again changes nothing. *)
Theorem strip_trims (s : str) :
  (exists a b, s = a ++ strip s ++ b
               /\ forallb isspace a = true /\ forallb isspace b = true)
  /\ (forall c r, strip s = c :: r -> isspace c = false)
  /\ (forall r c, strip s = r ++ [c] -> isspace c = false)
  /\ strip (strip s) = strip s.
Proof.
  assert (Hhead : forall c r, strip s = c :: r -> isspace c = false).
  { intros c r H. unfold strip in H.
    destruct (rstrip_split (lstrip s)) as (b & E & _).
    rewrite H in E.
    destruct (lstrip_head s) as [E0 | (c0 & r0 & E0 & Hc0)];
      rewrite E0 in E; [discriminate|].
    simpl in E. now injection E as -> _. }
  assert (Hlast : forall r c, strip s = r ++ [c] -> isspace c = false).
  { intros r c H. unfold strip, rstrip in H.
    apply (f_equal (@rev N)) in H.
    rewrite rev_involutive, rev_app_distr in H. simpl in H.
    destruct (lstrip_head (rev (lstrip s))) as [E0 | (c0 & r0 & E0 & Hc0)];
      rewrite E0 in H; [discriminate|].
    now injection H as -> _. }
  split; [|split; [exact Hhead | split; [exact Hlast|]]].
  - destruct (lstrip_split s) as (a & Ea & Ha).
    destruct (rstrip_split (lstrip s)) as (b & Eb & Hb).
    exists a, b. split; [|split; assumption].
    unfold strip. now rewrite <- Eb.
  - destruct (strip s) as [|c r] eqn:E; [reflexivity|].
    assert (Hl : lstrip (c :: r) = c :: r).
    { simpl. now rewrite (Hhead c r eq_refl). }
    unfold strip at 1. rewrite Hl. unfold rstrip.
    destruct (rev (c :: r)) as [|c' r'] eqn:Er.
    { apply (f_equal (@rev N)) in Er. rewrite rev_involutive in Er.
      discriminate. }
    assert (Hc' : isspace c' = false).
    { apply (Hlast (rev r') c').
      apply (f_equal (@rev N)) in Er. rewrite rev_involutive in Er.
      simpl in Er. now rewrite Er. }
    simpl. rewrite Hc'. rewrite <- Er. apply rev_involutive.
Qed.

Lemma strip_trims_witness :
  strip (py "  a red bicycle ") = 97%N :: py " red bicycle"
  /\ isspace 97%N = false.
Proof.
  assert (H : strip (py "  a red bicycle ") = 97%N :: py " red bicycle")
    by reflexivity.
  split; [exact H|].
  exact (proj1 (proj2 (strip_trims (py "  a red bicycle "))) _ _ H).
Defined.

(** ** What the reply tells about the request *)

(** The three ways in which a request with a body ends. *)
Lemma incoming_outcome env form w :
  let msg := strip (default [] (Body form)) in
  let w0 := received form w in
  msg <> [] ->
  (exists e w1,
     pipeline_failure env msg (From form) w0 e
     /\ pipeline env msg (From form) w0 = (Raise e, w1)
     /\ incoming_whatsapp env form w
        = (Ok {| messages := [ERROR_TEXT] |},
           snd (logger_error (py "An error occurred: " ++ exn_str e) w1)))
  \/ (exists r ps txt,
        generate_content env GEMINI_MODEL [msg] = Ok r
        /\ first_candidate_parts r = Ok ps
        /\ (process_parts ps = (None, txt) \/ process_parts ps = (Some [], txt))
        /\ incoming_whatsapp env form w
           = (Ok {| messages := [if truthy txt then NO_IMAGE_PREFIX ++ txt
                                 else COULD_NOT_TEXT] |}, asked msg w0))
  \/ (exists r ps b bs txt png mi,
        generate_content env GEMINI_MODEL [msg] = Ok r
        /\ first_candidate_parts r = Ok ps
        /\ process_parts ps = (Some (b :: bs), txt)
        /\ pil_png env (b :: bs) = Ok png
        /\ fs_lookup (image_filename env) (files w) <> Some Dir
        /\ messages_create env (media_message env msg (From form)) = Ok mi
        /\ incoming_whatsapp env form w
           = (Ok {| messages := [SUCCESS_TEXT] |},
              snd (logger_info (py "Image sent via Twilio, SID: " ++ sid mi)
                     (sent env msg (From form) png (asked msg w0))))).
Proof.
  intros msg w0 Hb.
  destruct (pipeline env msg (From form) w0) as [[rp|e] w1] eqn:Hp.
  - right. rewrite (incoming_pipeline_returns _ _ _ _ _ Hb Hp).
    revert Hp.
    destruct (generate_content env GEMINI_MODEL [msg]) as [r|e] eqn:Hg;
      [| rewrite (pipeline_generation_raises _ _ _ _ _ Hg); discriminate].
    rewrite (pipeline_parts _ _ _ _ _ Hg).
    destruct (first_candidate_parts r) as [ps|e] eqn:Hps; [|discriminate].
    destruct (process_parts ps) as [[[|b bs]|] txt] eqn:Hl.
    + rewrite (handle_parts_no_image _ _ _ _ _ txt) by auto.
      intros [= <- <-]. left. exists r, ps, txt. auto.
    + rewrite (handle_parts_image _ _ _ _ _ _ _ _ Hl).
      change (files (asked msg w0)) with (files w).
      destruct (pil_png env (b :: bs)) as [png|] eqn:Hd; [|discriminate].
      destruct (fs_lookup (image_filename env) (files w)) as [[d|]|] eqn:Hf;
        try discriminate;
        (destruct (messages_create env _) as [mi|] eqn:Hs; [|discriminate]);
        intros [= <- <-]; right; exists r, ps, b, bs, txt, png, mi;
        repeat split; auto; congruence.
    + rewrite (handle_parts_no_image _ _ _ _ _ txt) by auto.
      intros [= <- <-]. left. exists r, ps, txt. auto.
  - left. exists e, w1. split; [|split; [reflexivity|]].
    + now apply (pipeline_raises_failure _ _ _ _ _ w1).
    + now apply incoming_pipeline_raises.
Qed.

Lemma fallback_text_is_fallback (txt : str) :
  is_fallback (if truthy txt then NO_IMAGE_PREFIX ++ txt else COULD_NOT_TEXT).
Proof.
  destruct txt as [|c txt]; simpl; [now right|].
  left. exists (c :: txt). split; [discriminate | reflexivity].
Qed.

Lemma fallback_not_error (m : str) : is_fallback m -> m <> ERROR_TEXT.
Proof. intros H ->. now apply error_not_fallback. Qed.

Lemma fallback_not_success (m : str) : is_fallback m -> m <> SUCCESS_TEXT.
Proof. intros H ->. now apply success_not_fallback. Qed.

Lemma reply_text_eq (m1 m2 : str) :
  @Ok MessagingResponse {| messages := [m1] |} = Ok {| messages := [m2] |} ->
  m1 = m2.
Proof. intros H. now inversion H. Qed.

(** X5: the reply is empty exactly when the body is blank: a request whose
    body has a character that is not whitespace always gets a message. *)
Theorem empty_reply_iff_blank (env : Env) (form : Form) (w : World) :
  fst (incoming_whatsapp env form w) = Ok {| messages := [] |}
  <-> forallb isspace (default [] (Body form)) = true.
Proof.
  rewrite <- strip_nil_iff. split.
  - intros H.
    destruct (strip (default [] (Body form))) as [|c s] eqn:Hb;
      [reflexivity|].
    assert (Hne : strip (default [] (Body form)) <> []) by congruence.
    destruct (incoming_outcome env form w Hne)
      as [(e & w1 & _ & _ & E)
         | [(r & ps & txt & _ & _ & _ & E)
           | (r & ps & b & bs & txt & png & mi & _ & _ & _ & _ & _ & _ & E)]];
      rewrite E in H; cbn [fst] in H;
      apply (f_equal (fun x => match x with
                               | Ok m => length (messages m)
                               | Raise _ => 0
                               end)) in H;
      discriminate.
  - intros Hb. now rewrite (incoming_blank _ _ _ Hb).
Qed.

Lemma empty_reply_iff_blank_witness :
  forallb isspace (default [] (Body (demo_form "   "))) = true
  /\ fst (incoming_whatsapp bicycle_env (demo_form "   ") empty_world)
     = Ok {| messages := [] |}.
Proof.
  assert (H : forallb isspace (default [] (Body (demo_form "   "))) = true)
    by reflexivity.
  split; [exact H|].
  exact (proj2 (empty_reply_iff_blank bicycle_env (demo_form "   ")
                  empty_world) H).
Defined.

(** X6: the generic error text is the reply exactly when a step of the
    pipeline raised: it is never the answer to a request that went through. *)
Theorem error_reply_iff_failure (env : Env) (form : Form) (w : World) :
  strip (default [] (Body form)) <> [] ->
  fst (incoming_whatsapp env form w) = Ok {| messages := [ERROR_TEXT] |}
  <-> exists e,
        pipeline_failure env (strip (default [] (Body form))) (From form)
          (received form w) e.
Proof.
  intros Hb. split.
  - intros H.
    destruct (incoming_outcome env form w Hb)
      as [(e & w1 & Hf & _ & E)
         | [(r & ps & txt & _ & _ & _ & E)
           | (r & ps & b & bs & txt & png & mi & _ & _ & _ & _ & _ & _ & E)]].
    + now exists e.
    + rewrite E in H. cbn [fst] in H. apply reply_text_eq in H.
      now apply fallback_not_error in H; [|apply fallback_text_is_fallback].
    + rewrite E in H. cbn [fst] in H. apply reply_text_eq in H.
      now apply success_not_error in H.
  - intros [e Hf].
    destruct (pipeline_failure_raises _ _ _ _ _ Hf) as [w1 Hp].
    now rewrite (incoming_pipeline_raises _ _ _ _ _ Hb Hp).
Qed.

Lemma error_reply_iff_failure_witness :
  strip (default [] (Body (demo_form "a red bicycle"))) <> []
  /\ (fst (incoming_whatsapp bicycle_env (demo_form "a red bicycle")
             empty_world) = Ok {| messages := [ERROR_TEXT] |}
      <-> exists e,
            pipeline_failure bicycle_env
              (strip (default [] (Body (demo_form "a red bicycle"))))
              (From (demo_form "a red bicycle"))
              (received (demo_form "a red bicycle") empty_world) e).
Proof.
  assert (Hb : strip (default [] (Body (demo_form "a red bicycle"))) <> [])
    by (vm_compute; discriminate).
  split; [exact Hb|].
  exact (error_reply_iff_failure bicycle_env (demo_form "a red bicycle")
           empty_world Hb).
Defined.

(** X7: the success text is a sound acknowledgment. It is returned only when
    the response gave a non-empty payload, the decoder and the provider both
    succeeded, the file with the decoded bytes is in the directory, its name
    is registered, and the last provider call carries the URL of that file. *)
Theorem success_reply_sound (env : Env) (form : Form) (w w' : World) :
  incoming_whatsapp env form w = (Ok {| messages := [SUCCESS_TEXT] |}, w') ->
  exists r ps b bs png mi,
    generate_content env GEMINI_MODEL [strip (default [] (Body form))] = Ok r
    /\ first_candidate_parts r = Ok ps
    /\ fst (process_parts ps) = Some (b :: bs)
    /\ pil_png env (b :: bs) = Ok png
    /\ messages_create env
         (media_message env (strip (default [] (Body form))) (From form))
       = Ok mi
    /\ fs_lookup (image_filename env) (files w') = Some (File png)
    /\ generated_images w' !! image_filename env = Some true
    /\ last (twilio_calls w')
       = Some (media_message env (strip (default [] (Body form))) (From form)).
Proof.
  intros H.
  destruct (strip (default [] (Body form))) as [|c s] eqn:Hb.
  { rewrite (incoming_blank _ _ _ Hb) in H. discriminate. }
  assert (Hne : strip (default [] (Body form)) <> []) by congruence.
  rewrite <- Hb in *. clear Hb.
  destruct (incoming_outcome env form w Hne)
    as [(e & w1 & _ & _ & E)
       | [(r & ps & txt & _ & _ & _ & E)
         | (r & ps & b & bs & txt & png & mi & Hg & Hps & Hl & Hd & _ & Hs & E)]];
    rewrite E in H.
  - apply (f_equal fst) in H. cbn [fst] in H. apply reply_text_eq in H.
    symmetry in H. now apply success_not_error in H.
  - apply (f_equal fst) in H. cbn [fst] in H. apply reply_text_eq in H.
    now apply fallback_not_success in H; [|apply fallback_text_is_fallback].
  - apply (f_equal snd) in H. cbn [snd] in H. subst w'.
    exists r, ps, b, bs, png, mi.
    split; [exact Hg|]. split; [exact Hps|]. split; [now rewrite Hl|].
    split; [exact Hd|]. split; [exact Hs|].
    unfold sent, logger_info, logger. cbn [snd files generated_images twilio_calls].
    split; [apply fs_lookup_store_eq|].
    split; [apply lookup_insert_eq | apply last_snoc].
Qed.

Lemma success_reply_sound_witness :
  incoming_whatsapp bicycle_env (demo_form "a red bicycle") empty_world
  = (Ok {| messages := [SUCCESS_TEXT] |}, bicycle_world)
  /\ exists r ps b bs png mi,
       generate_content bicycle_env GEMINI_MODEL
         [strip (default [] (Body (demo_form "a red bicycle")))] = Ok r
       /\ first_candidate_parts r = Ok ps
       /\ fst (process_parts ps) = Some (b :: bs)
       /\ pil_png bicycle_env (b :: bs) = Ok png
       /\ messages_create bicycle_env
            (media_message bicycle_env
               (strip (default [] (Body (demo_form "a red bicycle"))))
               (From (demo_form "a red bicycle"))) = Ok mi
       /\ fs_lookup (image_filename bicycle_env) (files bicycle_world)
          = Some (File png)
       /\ generated_images bicycle_world !! image_filename bicycle_env
          = Some true
       /\ last (twilio_calls bicycle_world)
          = Some (media_message bicycle_env
                    (strip (default [] (Body (demo_form "a red bicycle"))))
                    (From (demo_form "a red bicycle"))).
Proof.
  assert (H : incoming_whatsapp bicycle_env (demo_form "a red bicycle")
                empty_world
              = (Ok {| messages := [SUCCESS_TEXT] |}, bicycle_world))
    by reflexivity.
  split; [exact H|].
  exact (success_reply_sound bicycle_env (demo_form "a red bicycle")
           empty_world bicycle_world H).
Defined.

(** X8: a no-image reply means that nothing was written and nothing was
    sent: the loop captured no payload or an empty one, the directory, the
    registry and the provider are as before, and the text of the reply is
    fixed by the text fragments of the response alone. *)
Theorem fallback_reply_untouched (env : Env) (form : Form) (w w' : World)
    (m : str) :
  incoming_whatsapp env form w = (Ok {| messages := [m] |}, w') ->
  is_fallback m ->
  files w' = files w
  /\ generated_images w' = generated_images w
  /\ twilio_calls w' = twilio_calls w
  /\ exists r ps,
       generate_content env GEMINI_MODEL [strip (default [] (Body form))]
       = Ok r
       /\ first_candidate_parts r = Ok ps
       /\ (fst (process_parts ps) = None \/ fst (process_parts ps) = Some [])
       /\ m = (if truthy (newline_terminated (fragments ps))
               then NO_IMAGE_PREFIX ++ newline_terminated (fragments ps)
               else COULD_NOT_TEXT).
Proof.
  intros H Hfb.
  destruct (strip (default [] (Body form))) as [|c s] eqn:Hb.
  { rewrite (incoming_blank _ _ _ Hb) in H. discriminate. }
  assert (Hne : strip (default [] (Body form)) <> []) by congruence.
  rewrite <- Hb in *. clear Hb.
  destruct (incoming_outcome env form w Hne)
    as [(e & w1 & _ & _ & E)
       | [(r & ps & txt & Hg & Hps & Hl & E)
         | (r & ps & b & bs & txt & png & mi & _ & _ & _ & _ & _ & _ & E)]];
    rewrite E in H.
  - apply (f_equal fst) in H. cbn [fst] in H. apply reply_text_eq in H.
    subst m. now apply error_not_fallback in Hfb.
  - assert (Htxt : txt = newline_terminated (fragments ps)).
    { pose proof (fold_process_text ps (None, [])) as Ht.
      fold (process_parts ps) in Ht.
      destruct Hl as [Hl|Hl]; rewrite Hl in Ht; exact Ht. }
    pose proof (f_equal snd H) as Hw. cbn [snd] in Hw. subst w'.
    apply (f_equal fst) in H. cbn [fst] in H. apply reply_text_eq in H.
    repeat split.
    exists r, ps. split; [exact Hg|]. split; [exact Hps|].
    split; [destruct Hl as [Hl|Hl]; rewrite Hl; auto|].
    now rewrite <- Htxt.
  - apply (f_equal fst) in H. cbn [fst] in H. apply reply_text_eq in H.
    subst m. now apply success_not_fallback in Hfb.
Qed.

Lemma fallback_reply_untouched_witness :
  (incoming_whatsapp (demo_env (Ok (response_of [captioned_image_part])))
     (demo_form "a red bicycle") empty_world
   = (Ok {| messages := [NO_IMAGE_PREFIX ++ py "Here you go" ++ NL] |},
      snd (incoming_whatsapp
             (demo_env (Ok (response_of [captioned_image_part])))
             (demo_form "a red bicycle") empty_world))
   /\ is_fallback (NO_IMAGE_PREFIX ++ py "Here you go" ++ NL))
  /\ files (snd (incoming_whatsapp
                   (demo_env (Ok (response_of [captioned_image_part])))
                   (demo_form "a red bicycle") empty_world))
     = files empty_world.
Proof.
  assert (H : incoming_whatsapp
                (demo_env (Ok (response_of [captioned_image_part])))
                (demo_form "a red bicycle") empty_world
              = (Ok {| messages := [NO_IMAGE_PREFIX ++ py "Here you go" ++ NL] |},
                 snd (incoming_whatsapp
                        (demo_env (Ok (response_of [captioned_image_part])))
                        (demo_form "a red bicycle") empty_world)))
    by reflexivity.
  assert (Hfb : is_fallback (NO_IMAGE_PREFIX ++ py "Here you go" ++ NL)).
  { left. exists (py "Here you go" ++ NL).
    split; [vm_compute; discriminate | reflexivity]. }
  split; [split; [exact H | exact Hfb]|].
  exact (proj1 (fallback_reply_untouched _ _ _ _ _ H Hfb)).
Defined.

(** ** Failures after the write *)

(** X9: when the provider call raises after the image has been written, the
    sender gets the generic error text, but nothing is rolled back: the file
    stays in the working directory and its name stays registered; and when
    the directory of the application is the working directory and the name
    is accepted, the image endpoint serves the file. *)
Theorem provider_failure_keeps_file (env : Env) (form : Form) (w : World)
    (r : GenerateContentResponse) (ps : list Part) (b : Byte.byte)
    (bs png : bytes) (e : exn) :
  strip (default [] (Body form)) <> [] ->
  generate_content env GEMINI_MODEL [strip (default [] (Body form))] = Ok r ->
  first_candidate_parts r = Ok ps ->
  fst (process_parts ps) = Some (b :: bs) ->
  pil_png env (b :: bs) = Ok png ->
  fs_lookup (image_filename env) (files w) <> Some Dir ->
  messages_create env
    (media_message env (strip (default [] (Body form))) (From form))
  = Raise e ->
  exists w',
    incoming_whatsapp env form w = (Ok {| messages := [ERROR_TEXT] |}, w')
    /\ fs_lookup (image_filename env) (files w') = Some (File png)
    /\ generated_images w' !! image_filename env = Some true
    /\ forall dep,
         root_elsewhere dep = None ->
         ordinary_name dep (image_filename env) = true ->
         fst (serve_image dep (image_filename env) w')
         = Ok (SendFile png (py "image/png")).
Proof.
  intros Hb Hg Hps Hl Hd Hf Hs.
  assert (Hl' : process_parts ps = (Some (b :: bs), snd (process_parts ps))).
  { rewrite <- Hl. apply surjective_pairing. }
  eexists. split.
  - apply (incoming_pipeline_raises env form w e); [exact Hb|].
    rewrite (pipeline_parts _ _ _ _ _ Hg), Hps.
    rewrite (handle_parts_image _ _ _ _ _ _ _ _ Hl'), Hd.
    change (files (asked (strip (default [] (Body form))) (received form w)))
      with (files w).
    rewrite Hs.
    destruct (fs_lookup (image_filename env) (files w)) as [[d|]|];
      [| congruence |]; reflexivity.
  - assert (Hfile : fs_lookup (image_filename env)
                      (fs_store (image_filename env) png (files w))
                    = Some (File png)) by apply fs_lookup_store_eq.
    unfold logger_error, logger, sent.
    cbn [snd files generated_images].
    split; [exact Hfile|]. split; [apply lookup_insert_eq|].
    intros dep Hroot Ho.
    rewrite (serve_image_file dep _ _ png Ho); [reflexivity|].
    unfold root_listing. rewrite Hroot. exact Hfile.
Qed.

Lemma provider_failure_keeps_file_witness :
  (strip (default [] (Body (demo_form "a red bicycle"))) <> []
   /\ fst (process_parts [image_part png1]) = Some png1
   /\ messages_create failing_send_env
        (media_message failing_send_env
           (strip (default [] (Body (demo_form "a red bicycle"))))
           (From (demo_form "a red bicycle"))) = Raise timeout_exn)
  /\ exists w',
       incoming_whatsapp failing_send_env (demo_form "a red bicycle")
         empty_world = (Ok {| messages := [ERROR_TEXT] |}, w')
       /\ fs_lookup (image_filename failing_send_env) (files w')
          = Some (File png1)
       /\ generated_images w' !! image_filename failing_send_env = Some true
       /\ forall dep,
            root_elsewhere dep = None ->
            ordinary_name dep (image_filename failing_send_env) = true ->
            fst (serve_image dep (image_filename failing_send_env) w')
            = Ok (SendFile png1 (py "image/png")).
Proof.
  split.
  - split; [vm_compute; discriminate|]. split; reflexivity.
  - apply (provider_failure_keeps_file failing_send_env
             (demo_form "a red bicycle") empty_world
             (response_of [image_part png1]) [image_part png1]
             Byte.x89 [Byte.x50; Byte.x4e; Byte.x47; Byte.x01] png1
             timeout_exn);
      try reflexivity; vm_compute; discriminate.
Defined.

(** ** The loop over the parts, in closed form *)

Lemma process_parts_snoc (ps : list Part) (x : Part) :
  process_parts (ps ++ [x]) = process_part (process_parts ps) x.
Proof. unfold process_parts. now rewrite fold_left_app. Qed.

(** X10: the loop computes, for every list of parts, the payload of the last
    part that has no text and carries inline data (nothing when there is no
    such part, or when that part has no data), together with the text
    fragments in order, each followed by a newline. *)
Theorem process_parts_closed_form (ps : list Part) :
  process_parts ps
  = (match last (filter (fun p => image_only p = true) ps) with
     | Some p => payload p
     | None => None
     end,
     newline_terminated (fragments ps)).
Proof.
  induction ps as [|x ps IH] using rev_ind; [reflexivity|].
  rewrite process_parts_snoc, IH, filter_app, fragments_app.
  unfold process_part, newline_terminated, fragments.
  cbn [fst snd omap list_omap filter list_filter].
  rewrite map_app, concat_app.
  destruct (decide (image_only x = true)) as [Hx|Hx];
    unfold image_only in Hx; unfold payload at 1;
    destruct (text x) as [t|]; try discriminate;
    destruct (inline_data x) as [bl|] eqn:Ei; try congruence;
    cbn [omap list_omap map concat];
    rewrite ?app_nil_r, ?last_snoc; unfold payload; rewrite ?Ei;
    reflexivity.
Qed.

(** X11: an image is used only if the last part that can give one has a
    payload that is not empty. When that part has no data or empty data, the
    images of all earlier parts are dropped too: the reply is a no-image
    text, and nothing is written or sent. *)
Theorem empty_last_image_discards (env : Env) (form : Form) (w : World)
    (r : GenerateContentResponse) (ps qs : list Part) (p : Part) :
  strip (default [] (Body form)) <> [] ->
  generate_content env GEMINI_MODEL [strip (default [] (Body form))] = Ok r ->
  first_candidate_parts r = Ok (ps ++ p :: qs) ->
  image_only p = true ->
  forallb (fun q => negb (image_only q)) qs = true ->
  payload p = None \/ payload p = Some [] ->
  exists m w',
    incoming_whatsapp env form w = (Ok {| messages := [m] |}, w')
    /\ is_fallback m
    /\ files w' = files w
    /\ generated_images w' = generated_images w
    /\ twilio_calls w' = twilio_calls w.
Proof.
  intros Hb Hg Hps Hp Hqs Hpay.
  pose proof (process_parts_last ps qs p Hp Hqs) as Hl.
  eexists _, _. split.
  - apply incoming_pipeline_returns; [exact Hb|].
    rewrite (pipeline_parts _ _ _ _ _ Hg), Hps.
    apply handle_parts_no_image.
    destruct Hpay as [E|E]; rewrite E in Hl; [left | right]; exact Hl.
  - split; [apply fallback_text_is_fallback|]. repeat split.
Qed.

(** A part with inline data but no bytes. *)
Lemma empty_last_image_discards_witness :
  (strip (default [] (Body (demo_form "a red bicycle"))) <> []
   /\ image_only {| text := None; inline_data := Some {| data := None |} |}
      = true
   /\ payload {| text := None; inline_data := Some {| data := None |} |}
      = None)
  /\ exists m w',
       incoming_whatsapp
         (demo_env (Ok (response_of
                          ([image_part png1]
                           ++ {| text := None;
                                 inline_data := Some {| data := None |} |}
                           :: []))))
         (demo_form "a red bicycle") empty_world
       = (Ok {| messages := [m] |}, w')
       /\ is_fallback m
       /\ files w' = files empty_world
       /\ generated_images w' = generated_images empty_world
       /\ twilio_calls w' = twilio_calls empty_world.
Proof.
  split.
  - split; [vm_compute; discriminate|]. split; reflexivity.
  - apply (empty_last_image_discards _ (demo_form "a red bicycle") empty_world
             (response_of
                ([image_part png1]
                 ++ {| text := None; inline_data := Some {| data := None |} |}
                 :: []))
             [image_part png1] []
             {| text := None; inline_data := Some {| data := None |} |});
      try reflexivity; [vm_compute; discriminate | now left].
Defined.

(** ** Requests and the cleanup *)

Lemma starts_with_app (p x : str) : starts_with p (p ++ x) = true.
Proof.
  induction p as [|c p IH]; [reflexivity|].
  simpl. now rewrite N.eqb_refl, IH.
Qed.

Lemma ends_with_app (x suf : str) : ends_with suf (x ++ suf) = true.
Proof. unfold ends_with. rewrite rev_app_distr. apply starts_with_app. Qed.

Lemma image_filename_pattern (env : Env) :
  generated_pattern (image_filename env) = true.
Proof.
  unfold generated_pattern, image_filename.
  rewrite starts_with_app.
  change 10 with (length (py "generated_")).
  rewrite drop_app_length. apply ends_with_app.
Qed.

Lemma remove_each_files_spec (names : list str) (w : World) :
  files (snd (remove_each names w)) = remove_each_files names (files w).
Proof.
  revert w. induction names as [|n names IH]; intros w; [reflexivity|].
  rewrite remove_each_cons. unfold os_remove. cbn [remove_each_files].
  unfold is_file.
  destruct (fs_lookup n (files w)) as [[d|]|]; try reflexivity.
  rewrite IH. reflexivity.
Qed.

Lemma cleanup_files (w : World) :
  files (snd (cleanup_generated_images w))
  = remove_each_files (generated_names w) (files w).
Proof.
  rewrite cleanup_unfold, <- remove_each_files_spec.
  destruct (remove_each _ w) as [[a|e] w1]; reflexivity.
Qed.

Lemma generated_names_unlink (fs : list (str * inode)) (a : str)
    (rest : list str) :
  NoDup (map fst fs) ->
  filter (fun n => generated_pattern n = true) (map fst fs) = a :: rest ->
  filter (fun n => generated_pattern n = true) (map fst (fs_unlink a fs))
  = rest.
Proof.
  induction fs as [|[n i] fs IH]; simpl; intros Hnd H; [discriminate|].
  apply NoDup_cons in Hnd as [Hn Hnd].
  rewrite filter_cons in H.
  destruct (decide (n = a)) as [->|Hne].
  - destruct (decide (generated_pattern a = true)) as [Hp|Hp].
    + now injection H.
    + exfalso. apply Hn.
      assert (Hin : a ∈ filter (fun n => generated_pattern n = true)
                          (map fst fs))
        by (rewrite H; apply list_elem_of_here).
      now apply list_elem_of_filter in Hin as [_ Hin].
  - simpl. rewrite filter_cons.
    destruct (decide (generated_pattern n = true)) as [Hp|Hp].
    + injection H as E _. contradiction.
    + now apply IH.
Qed.

Lemma remove_each_files_idem (names : list str) (fs : list (str * inode)) :
  NoDup (map fst fs) ->
  filter (fun n => generated_pattern n = true) (map fst fs) = names ->
  remove_each_files
    (filter (fun n => generated_pattern n = true)
       (map fst (remove_each_files names fs)))
    (remove_each_files names fs)
  = remove_each_files names fs.
Proof.
  revert fs. induction names as [|a rest IH]; intros fs Hnd Hnames.
  - simpl. now rewrite Hnames.
  - cbn [remove_each_files]. destruct (is_file fs a) eqn:Ha.
    + apply IH; [now apply NoDup_unlink | now apply generated_names_unlink].
    + rewrite Hnames. cbn [remove_each_files]. now rewrite Ha.
Qed.

(** X12: the cleanup is idempotent on the directory: a second run in a row
    deletes nothing more than the first one did. *)
Theorem cleanup_idempotent (w : World) :
  NoDup (map fst (files w)) ->
  files (snd (cleanup_generated_images (snd (cleanup_generated_images w))))
  = files (snd (cleanup_generated_images w)).
Proof.
  intros Hnd.
  rewrite (cleanup_files (snd (cleanup_generated_images w))).
  unfold generated_names. rewrite !cleanup_files.
  now apply remove_each_files_idem.
Qed.

Lemma cleanup_idempotent_witness :
  NoDup (map fst (files cluttered_world))
  /\ files (snd (cleanup_generated_images
                   (snd (cleanup_generated_images cluttered_world))))
     = files (snd (cleanup_generated_images cluttered_world)).
Proof.
  assert (Hnd : NoDup (map fst (files cluttered_world))).
  { apply (bool_decide_unpack _). vm_compute. exact I. }
  split; [exact Hnd | exact (cleanup_idempotent cluttered_world Hnd)].
Defined.

Lemma cleanup_deletes_all (w : World) :
  NoDup (map fst (files w)) ->
  Forall (fun n => is_file (files w) n = true) (generated_names w) ->
  forall n,
    fs_lookup n (files (snd (cleanup_generated_images w)))
    = if generated_pattern n then None else fs_lookup n (files w).
Proof.
  intros Hfs Hall n.
  assert (Hnd : NoDup (generated_names w)) by now apply NoDup_filter.
  destruct (remove_each_all _ w Hfs Hnd Hall) as (w1 & Hrun & _ & _ & Hlook).
  rewrite cleanup_unfold, Hrun. cbn [snd]. rewrite Hlook.
  unfold generated_names.
  destruct (generated_pattern n) eqn:Hpat.
  - destruct (decide _) as [Hin|Hin]; [reflexivity|].
    apply fs_lookup_None. intros Hn. apply Hin.
    apply list_elem_of_filter. now split.
  - rewrite decide_False; [reflexivity|].
    rewrite list_elem_of_filter. intros [Hp _]. congruence.
Qed.

(** X13: what a request writes, the cleanup finds. From a directory whose
    entries matching the pattern are regular files, after any request and
    then the cleanup no entry matching the pattern is left and the other
    entries are as before the request; when the directory of the
    application is the working directory and the name is accepted, the image
    endpoint answers not-found for the file name of the request. The
    registry is not cleaned: it is as the request left it. *)
Theorem request_then_cleanup (env : Env) (form : Form) (w : World) :
  NoDup (map fst (files w)) ->
  Forall (fun n => is_file (files w) n = true) (generated_names w) ->
  let w1 := snd (incoming_whatsapp env form w) in
  let w2 := snd (cleanup_generated_images w1) in
  (forall n,
     fs_lookup n (files w2)
     = if generated_pattern n then None else fs_lookup n (files w))
  /\ (forall dep,
        root_elsewhere dep = None ->
        ordinary_name dep (image_filename env) = true ->
        fst (serve_image dep (image_filename env) w2)
        = Ok (Plain (py "Image not found") 404))
  /\ generated_images w2 = generated_images w1.
Proof.
  intros Hnd Hall w1 w2.
  assert (Hfiles : files w1 = files w
                   \/ exists png,
                        files w1 = fs_store (image_filename env) png (files w)).
  { subst w1. destruct (incoming_files env form w) as [Hf | (d & _ & Hf)];
      eauto. }
  assert (Hnd1 : NoDup (map fst (files w1))).
  { destruct Hfiles as [-> | (png & ->)]; [exact Hnd | now apply NoDup_store]. }
  assert (Hlook1 : forall n, n <> image_filename env ->
                     fs_lookup n (files w1) = fs_lookup n (files w)).
  { intros n Hne. destruct Hfiles as [-> | (png & ->)]; [reflexivity|].
    now apply fs_lookup_store_ne. }
  assert (Hall1 : Forall (fun n => is_file (files w1) n = true)
                    (generated_names w1)).
  { apply Forall_forall. intros n Hn. unfold is_file.
    destruct (decide (n = image_filename env)) as [->|Hne].
    - destruct Hfiles as [E | (png & E)]; rewrite E.
      + rewrite Forall_forall in Hall. apply (Hall (image_filename env)).
        unfold generated_names in *. now rewrite <- E.
      + now rewrite fs_lookup_store_eq.
    - rewrite (Hlook1 n Hne). rewrite Forall_forall in Hall.
      apply (Hall n). unfold generated_names in *.
      apply list_elem_of_filter in Hn as [Hp Hn].
      apply list_elem_of_filter. split; [exact Hp|].
      destruct (fs_lookup n (files w)) eqn:El.
      + destruct (decide (n ∈ map fst (files w))) as [Hin|Hin]; [exact Hin|].
        apply fs_lookup_None in Hin. congruence.
      + exfalso. rewrite <- (Hlook1 n Hne) in El.
        now apply fs_lookup_None in El. }
  assert (Hlook2 : forall n,
             fs_lookup n (files w2)
             = if generated_pattern n then None else fs_lookup n (files w)).
  { intros n. subst w2. rewrite (cleanup_deletes_all w1 Hnd1 Hall1 n).
    destruct (generated_pattern n) eqn:Hp; [reflexivity|].
    apply Hlook1. intros ->. rewrite image_filename_pattern in Hp.
    discriminate. }
  split; [exact Hlook2|]. split.
  - intros dep Hroot Ho. rewrite (serve_image_missing dep _ _ Ho);
      [reflexivity|].
    unfold root_listing. rewrite Hroot.
    now rewrite Hlook2, image_filename_pattern.
  - subst w2. pose proof (cleanup_registry (generated_images w1) w1) as H.
    rewrite set_generated_images_same in H. rewrite H at 1. reflexivity.
Qed.

Lemma request_then_cleanup_witness :
  (NoDup (map fst (files bicycle_world))
   /\ Forall (fun n => is_file (files bicycle_world) n = true)
        (generated_names bicycle_world))
  /\ fst (serve_image cwd_deployment (image_filename bicycle_env)
            (snd (cleanup_generated_images
                    (snd (incoming_whatsapp bicycle_env
                            (demo_form "a blue car") bicycle_world)))))
     = Ok (Plain (py "Image not found") 404).
Proof.
  assert (Hnd : NoDup (map fst (files bicycle_world))).
  { apply (bool_decide_unpack _). vm_compute. exact I. }
  assert (Hall : Forall (fun n => is_file (files bicycle_world) n = true)
                   (generated_names bicycle_world)).
  { repeat constructor. }
  split; [split; [exact Hnd | exact Hall]|].
  apply (proj1 (proj2 (request_then_cleanup bicycle_env
                         (demo_form "a blue car") bicycle_world Hnd Hall))
           cwd_deployment eq_refl).
  vm_compute. reflexivity.
Defined.

(** X14: for every uuid text the file name of a request matches the pattern
    of the cleanup, and after a request answered with the success text the
    name is among the names that the cleanup visits. *)
Theorem written_name_is_visited :
  (forall env, generated_pattern (image_filename env) = true)
  /\ (forall env form w w',
        incoming_whatsapp env form w
        = (Ok {| messages := [SUCCESS_TEXT] |}, w') ->
        image_filename env ∈ generated_names w').
Proof.
  split; [exact image_filename_pattern|].
  intros env form w w' H.
  destruct (incoming_success_inv _ _ _ _ H) as [png Hpng].
  unfold generated_names. apply list_elem_of_filter.
  split; [apply image_filename_pattern|].
  destruct (decide (image_filename env ∈ map fst (files w'))) as [Hin|Hin];
    [exact Hin|].
  apply fs_lookup_None in Hin. congruence.
Qed.

Lemma written_name_is_visited_witness :
  incoming_whatsapp bicycle_env (demo_form "a red bicycle") empty_world
  = (Ok {| messages := [SUCCESS_TEXT] |}, bicycle_world)
  /\ image_filename bicycle_env ∈ generated_names bicycle_world.
Proof.
  assert (H : incoming_whatsapp bicycle_env (demo_form "a red bicycle")
                empty_world
              = (Ok {| messages := [SUCCESS_TEXT] |}, bicycle_world))
    by reflexivity.
  split; [exact H|].
  exact (proj2 written_name_is_visited bicycle_env
           (demo_form "a red bicycle") empty_world bicycle_world H).
Defined.

Lemma incoming_success_stored env form w w' :
  incoming_whatsapp env form w = (Ok {| messages := [SUCCESS_TEXT] |}, w') ->
  exists r ps b bs png,
    generate_content env GEMINI_MODEL [strip (default [] (Body form))] = Ok r
    /\ first_candidate_parts r = Ok ps
    /\ fst (process_parts ps) = Some (b :: bs)
    /\ pil_png env (b :: bs) = Ok png
    /\ files w' = fs_store (image_filename env) png (files w).
Proof.
  intros H.
  destruct (strip (default [] (Body form))) as [|c s] eqn:Hb.
  { rewrite (incoming_blank _ _ _ Hb) in H. discriminate. }
  assert (Hne : strip (default [] (Body form)) <> []) by congruence.
  rewrite <- Hb in *. clear Hb.
  destruct (incoming_outcome env form w Hne)
    as [(e & w1 & _ & _ & E)
       | [(r & ps & txt & _ & _ & _ & E)
         | (r & ps & b & bs & txt & png & mi & Hg & Hps & Hl & Hd & _ & _ & E)]];
    rewrite E in H.
  - apply (f_equal fst) in H. cbn [fst] in H. apply reply_text_eq in H.
    symmetry in H. now apply success_not_error in H.
  - apply (f_equal fst) in H. cbn [fst] in H. apply reply_text_eq in H.
    now apply fallback_not_success in H; [|apply fallback_text_is_fallback].
  - apply (f_equal snd) in H. cbn [snd] in H. subst w'.
    exists r, ps, b, bs, png. rewrite Hl. auto.
Qed.

Lemma fs_store_present name d fs :
  is_Some (fs_lookup name fs) ->
  map fst (fs_store name d fs) = map fst fs.
Proof.
  induction fs as [|[n i] fs IH]; simpl; intros H.
  - now destruct H.
  - destruct (decide (n = name)); simpl; [reflexivity|].
    f_equal. now apply IH.
Qed.

(** X15: the file name keeps 8 hexadecimal digits of the uuid only. When two
    requests that both succeed draw uuids with the same first 8 digits, they
    write the same name: the second image replaces the first in the working
    directory and the listing gets no new entry; when the directory of the
    application is the working directory and the name is accepted, the
    endpoint serves the second image. *)
Theorem colliding_names_overwrite (env1 env2 : Env) (form1 form2 : Form)
    (w w1 w2 : World) :
  take 8 (uuid4_hex env1) = take 8 (uuid4_hex env2) ->
  incoming_whatsapp env1 form1 w
  = (Ok {| messages := [SUCCESS_TEXT] |}, w1) ->
  incoming_whatsapp env2 form2 w1
  = (Ok {| messages := [SUCCESS_TEXT] |}, w2) ->
  image_filename env1 = image_filename env2
  /\ map fst (files w2) = map fst (files w1)
  /\ exists r ps b bs png2,
       generate_content env2 GEMINI_MODEL [strip (default [] (Body form2))]
       = Ok r
       /\ first_candidate_parts r = Ok ps
       /\ fst (process_parts ps) = Some (b :: bs)
       /\ pil_png env2 (b :: bs) = Ok png2
       /\ fs_lookup (image_filename env1) (files w2) = Some (File png2)
       /\ forall dep,
            root_elsewhere dep = None ->
            ordinary_name dep (image_filename env1) = true ->
            fst (serve_image dep (image_filename env1) w2)
            = Ok (SendFile png2 (py "image/png")).
Proof.
  intros Hpre H1 H2.
  assert (Hname : image_filename env1 = image_filename env2).
  { unfold image_filename. now rewrite Hpre. }
  destruct (incoming_success_inv _ _ _ _ H1) as [png1 Hpng1].
  destruct (incoming_success_stored _ _ _ _ H2)
    as (r & ps & b & bs & png2 & Hg & Hps & Hl & Hd & Hf).
  assert (Hfile : fs_lookup (image_filename env1) (files w2)
                  = Some (File png2)).
  { rewrite Hf, Hname. apply fs_lookup_store_eq. }
  split; [exact Hname|]. split.
  - rewrite Hf. apply fs_store_present. rewrite <- Hname, Hpng1. eauto.
  - exists r, ps, b, bs, png2. repeat split; try assumption.
    intros dep Hroot Ho.
    rewrite (serve_image_file dep _ _ png2 Ho); [reflexivity|].
    unfold root_listing. now rewrite Hroot.
Qed.

Lemma colliding_names_overwrite_witness :
  (take 8 (uuid4_hex bicycle_env) = take 8 (uuid4_hex colliding_env)
   /\ fs_lookup (image_filename bicycle_env) (files bicycle_world)
      = Some (File png1))
  /\ map fst (files (snd (incoming_whatsapp colliding_env
                            (demo_form "a blue car") bicycle_world)))
     = map fst (files bicycle_world)
  /\ fst (serve_image cwd_deployment (image_filename bicycle_env)
            (snd (incoming_whatsapp colliding_env (demo_form "a blue car")
                    bicycle_world)))
     = Ok (SendFile png2 (py "image/png")).
Proof.
  assert (Hpre : take 8 (uuid4_hex bicycle_env)
                 = take 8 (uuid4_hex colliding_env))
    by (vm_compute; reflexivity).
  assert (H1 : incoming_whatsapp bicycle_env (demo_form "a red bicycle")
                 empty_world
               = (Ok {| messages := [SUCCESS_TEXT] |}, bicycle_world))
    by reflexivity.
  assert (H2 : incoming_whatsapp colliding_env (demo_form "a blue car")
                 bicycle_world
               = (Ok {| messages := [SUCCESS_TEXT] |},
                  snd (incoming_whatsapp colliding_env
                         (demo_form "a blue car") bicycle_world)))
    by (vm_compute; reflexivity).
  destruct (colliding_names_overwrite _ _ _ _ _ _ _ Hpre H1 H2)
    as (_ & Hnames & r & ps & b & bs & png & _ & _ & _ & _ & Hfile & Hserve).
  split; [split; [exact Hpre | vm_compute; reflexivity]|].
  split; [exact Hnames|].
  assert (Hfile2 : fs_lookup (image_filename bicycle_env)
                     (files (snd (incoming_whatsapp colliding_env
                                    (demo_form "a blue car") bicycle_world)))
                   = Some (File png2)) by (vm_compute; reflexivity).
  rewrite Hfile2 in Hfile.
  assert (E : png2 = png) by congruence.
  rewrite E. apply (Hserve cwd_deployment eq_refl).
  vm_compute. reflexivity.
Defined.

(** ** Responses that cannot be read *)

(** X16: a response without a first candidate, or whose first candidate has
    no content or no list of parts, is answered with the generic error text
    and nothing is written or sent; a first candidate with an empty list of
    parts is answered with the could-not-generate notice instead. *)
Theorem unreadable_response_is_error (env : Env) (form : Form) (w : World)
    (r : GenerateContentResponse) :
  strip (default [] (Body form)) <> [] ->
  generate_content env GEMINI_MODEL [strip (default [] (Body form))] = Ok r ->
  (candidates r = None \/ candidates r = Some []
   \/ (exists c cs, candidates r = Some (c :: cs)
                    /\ (content c = None
                        \/ exists ct, content c = Some ct /\ parts ct = None))
   -> exists w',
        incoming_whatsapp env form w = (Ok {| messages := [ERROR_TEXT] |}, w')
        /\ files w' = files w
        /\ generated_images w' = generated_images w
        /\ twilio_calls w' = twilio_calls w)
  /\ ((exists c cs ct, candidates r = Some (c :: cs)
                       /\ content c = Some ct /\ parts ct = Some [])
      -> exists w',
           incoming_whatsapp env form w
           = (Ok {| messages := [COULD_NOT_TEXT] |}, w')).
Proof.
  intros Hb Hg. split.
  - intros Hshape.
    assert (Hraise : exists e, first_candidate_parts r = Raise e).
    { unfold first_candidate_parts.
      destruct Hshape as [-> | [-> | (c & cs & -> & [-> | (ct & -> & ->)])]];
        eauto. }
    destruct Hraise as [e He].
    eexists. split.
    + apply (incoming_pipeline_raises env form w e); [exact Hb|].
      now rewrite (pipeline_parts _ _ _ _ _ Hg), He.
    + repeat split.
  - intros (c & cs & ct & Hc & Hct & Hps).
    assert (Hparts : first_candidate_parts r = Ok []).
    { unfold first_candidate_parts. now rewrite Hc, Hct, Hps. }
    eexists.
    apply incoming_pipeline_returns; [exact Hb|].
    rewrite (pipeline_parts _ _ _ _ _ Hg), Hparts.
    rewrite (handle_parts_no_image _ _ _ _ _ []); [reflexivity | now left].
Qed.

Lemma unreadable_response_is_error_witness :
  (strip (default [] (Body (demo_form "a red bicycle"))) <> []
   /\ candidates {| candidates := Some [] |} = Some [])
  /\ exists w',
       incoming_whatsapp (demo_env (Ok {| candidates := Some [] |}))
         (demo_form "a red bicycle") empty_world
       = (Ok {| messages := [ERROR_TEXT] |}, w')
       /\ files w' = files empty_world
       /\ generated_images w' = generated_images empty_world
       /\ twilio_calls w' = twilio_calls empty_world.
Proof.
  assert (Hb : strip (default [] (Body (demo_form "a red bicycle"))) <> [])
    by (vm_compute; discriminate).
  split; [split; [exact Hb | reflexivity]|].
  apply (proj1 (unreadable_response_is_error
                  (demo_env (Ok {| candidates := Some [] |}))
                  (demo_form "a red bicycle") empty_world
                  {| candidates := Some [] |} Hb eq_refl)).
  right. now left.
Defined.

(** ** The image endpoint *)

(** X17: the image endpoint only reads: whatever the name, it leaves the
    directory, the registry and the call records as they are. It answers
    not-found exactly for an accepted name without entry in the directory of
    the application, and serves exactly the regular files of that directory
    as [image/png]. For every other name (one with a NUL, one that is too
    long, the empty name, [.], [..], a directory) the error of the read is
    not the one that the endpoint catches, and it leaves the endpoint. *)
Theorem serve_image_read_only (dep : Deployment) (filename : str)
    (w : World) :
  let w' := snd (serve_image dep filename w) in
  let found := fs_lookup filename (root_listing dep w) in
  (files w' = files w
   /\ generated_images w' = generated_images w
   /\ gemini_calls w' = gemini_calls w
   /\ twilio_calls w' = twilio_calls w)
  /\ (fst (serve_image dep filename w) = Ok (Plain (py "Image not found") 404)
      <-> ordinary_name dep filename = true /\ found = None)
  /\ (forall d,
        fst (serve_image dep filename w) = Ok (SendFile d (py "image/png"))
        <-> ordinary_name dep filename = true /\ found = Some (File d))
  /\ ((exists e, fst (serve_image dep filename w) = Raise e
                 /\ exn_cls e <> FileNotFoundError)
      <-> ordinary_name dep filename = false \/ found = Some Dir).
Proof.
  intros w' found. subst w' found.
  destruct (ordinary_name dep filename) eqn:Ho.
  - destruct (fs_lookup filename (root_listing dep w)) as [[d|]|] eqn:Hl.
    + rewrite (serve_image_file dep _ _ d Ho Hl). cbn [fst snd].
      split; [repeat split|]. split; [|split].
      * split; [discriminate | intros [_ H]; discriminate].
      * intros d'. split.
        -- intros H. split; [reflexivity|]. now inversion H.
        -- intros [_ H]. now inversion H.
      * split; [intros (e & H & _); discriminate|].
        intros [H|H]; discriminate.
    + destruct (serve_image_raises dep filename w (or_intror Hl))
        as (e & E & He).
      rewrite E. cbn [fst snd].
      split; [repeat split|]. split; [|split].
      * split; [discriminate | intros [_ H]; discriminate].
      * intros d'. split; [discriminate | intros [_ H]; discriminate].
      * split; [auto | intros _; eauto].
    + rewrite (serve_image_missing dep _ _ Ho Hl). cbn [fst snd].
      split; [repeat split|]. split; [|split].
      * split; auto.
      * intros d'. split; [discriminate | intros [_ H]; discriminate].
      * split; [intros (e & H & _); discriminate|].
        intros [H|H]; discriminate.
  - destruct (serve_image_raises dep filename w (or_introl Ho))
      as (e & E & He).
    rewrite E. cbn [fst snd].
    split; [repeat split|]. split; [|split].
    + split; [discriminate | intros [H _]; discriminate].
    + intros d'. split; [discriminate | intros [H _]; discriminate].
    + split; [auto | intros _; eauto].
Qed.

Lemma serve_image_read_only_witness :
  (ordinary_name cwd_deployment (py "..") = false)
  /\ exists e,
       fst (serve_image cwd_deployment (py "..") bicycle_world) = Raise e
       /\ exn_cls e <> FileNotFoundError.
Proof.
  assert (Ho : ordinary_name cwd_deployment (py "..") = false)
    by (vm_compute; reflexivity).
  split; [exact Ho|].
  exact (proj2 (proj2 (proj2 (proj2 (serve_image_read_only cwd_deployment
                                       (py "..") bicycle_world))))
           (or_introl Ho)).
Defined.

(** ** The pattern and the reach of the cleanup *)

Lemma starts_with_iff (p s : str) :
  starts_with p s = true <-> exists x, s = p ++ x.
Proof.
  revert s. induction p as [|c p IH]; intros s; simpl.
  - split; [intros _; now exists s | reflexivity].
  - destruct s as [|d s].
    + split; [discriminate | intros [x Hx]; discriminate].
    + rewrite andb_true_iff, N.eqb_eq, IH. split.
      * intros [-> [x ->]]. now exists x.
      * intros [x Hx]. injection Hx as -> ->. eauto.
Qed.

Lemma ends_with_iff (suf s : str) :
  ends_with suf s = true <-> exists x, s = x ++ suf.
Proof.
  unfold ends_with. rewrite starts_with_iff. split; intros [x Hx].
  - exists (rev x). apply (f_equal (@rev N)) in Hx.
    now rewrite rev_involutive, rev_app_distr, rev_involutive in Hx.
  - exists (rev x). now rewrite Hx, rev_app_distr.
Qed.

(** X18: the names that the cleanup selects are exactly the names made of
    [generated_], any text (possibly empty), and [.png], in that order and
    without overlap. *)
Theorem generated_pattern_iff (name : str) :
  generated_pattern name = true
  <-> exists mid, name = py "generated_" ++ mid ++ py ".png".
Proof.
  unfold generated_pattern.
  rewrite andb_true_iff, starts_with_iff, ends_with_iff. split.
  - intros [[x ->] [mid Hmid]].
    change 10 with (length (py "generated_")) in Hmid.
    rewrite drop_app_length in Hmid. subst x. now exists mid.
  - intros [mid ->]. split; [eauto|].
    change 10 with (length (py "generated_")).
    rewrite drop_app_length. eauto.
Qed.

Lemma remove_each_files_lookup (names : list str) (fs : list (str * inode))
    (n : str) :
  fs_lookup n (remove_each_files names fs) = fs_lookup n fs
  \/ (n ∈ names /\ is_file fs n = true).
Proof.
  revert fs. induction names as [|a rest IH]; intros fs; [now left|].
  cbn [remove_each_files]. destruct (is_file fs a) eqn:Ha; [|now left].
  destruct (decide (n = a)) as [->|Hne].
  - right. split; [apply list_elem_of_here | exact Ha].
  - destruct (IH (fs_unlink a fs)) as [E | [Hin Hf]].
    + left. rewrite E. now apply fs_lookup_unlink_ne.
    + right. split; [now apply list_elem_of_further|].
      unfold is_file in *. now rewrite fs_lookup_unlink_ne in Hf.
Qed.

(** X19: the cleanup only deletes regular files whose name matches the
    pattern. Every other entry is as before: a name that does not match, a
    directory, and a name that was absent stays absent. *)
Theorem cleanup_only_deletes_generated_files (w : World) (n : str) :
  let w' := snd (cleanup_generated_images w) in
  (fs_lookup n (files w') = fs_lookup n (files w)
   \/ (generated_pattern n = true
       /\ exists d, fs_lookup n (files w) = Some (File d)))
  /\ (generated_pattern n = false ->
      fs_lookup n (files w') = fs_lookup n (files w))
  /\ (fs_lookup n (files w) = Some Dir -> fs_lookup n (files w') = Some Dir)
  /\ (fs_lookup n (files w) = None -> fs_lookup n (files w') = None).
Proof.
  intros w'. subst w'. rewrite cleanup_files.
  assert (H : fs_lookup n (remove_each_files (generated_names w) (files w))
              = fs_lookup n (files w)
              \/ (generated_pattern n = true
                  /\ exists d, fs_lookup n (files w) = Some (File d))).
  { destruct (remove_each_files_lookup (generated_names w) (files w) n)
      as [E | [Hin Hf]]; [now left|].
    right. unfold generated_names in Hin.
    apply list_elem_of_filter in Hin as [Hp _]. split; [exact Hp|].
    unfold is_file in Hf.
    destruct (fs_lookup n (files w)) as [[d|]|]; try discriminate. eauto. }
  split; [exact H|]. split; [|split].
  - intros Hp. destruct H as [E | [Hp' _]]; [exact E | congruence].
  - intros Hd. destruct H as [E | [_ [d Hf]]]; [now rewrite E | congruence].
  - intros Hd. destruct H as [E | [_ [d Hf]]]; [now rewrite E | congruence].
Qed.

Lemma cleanup_only_deletes_generated_files_witness :
  fs_lookup (py "generated_bbbbbbbb.png") (files cluttered_world) = Some Dir
  /\ fs_lookup (py "generated_bbbbbbbb.png")
       (files (snd (cleanup_generated_images cluttered_world)))
     = Some Dir.
Proof.
  assert (H : fs_lookup (py "generated_bbbbbbbb.png") (files cluttered_world)
              = Some Dir) by (vm_compute; reflexivity).
  split; [exact H|].
  exact (proj1 (proj2 (proj2 (cleanup_only_deletes_generated_files
                                cluttered_world
                                (py "generated_bbbbbbbb.png")))) H).
Defined.
